(** * Estimote packet decoders: Nearable and Telemetry

    A shallow embedding of [parseEstimoteNearablePacket] (the Nearable
    script) and [parseEstimoteTelemetryPacket] (estimote-telemetry.js),
    together with the part of the Node.js [Buffer] interface they call.

    Conventions.
    - A buffer is a [list byte]; offsets are [nat].
    - Integers the scripts compute are [Z].  Every value that reaches a
      JavaScript bit operator here is below 2^31, so the 32-bit
      truncation of [&], [|], [<<] and [>>] never shows and the operators
      are [Z.land], [Z.lor], [Z.shiftl] and [Z.shiftr].
    - Real-valued results whose computation is exact in binary64
      ([x / 16.0], [x / 128.0], [x / 256.0], [x * 15.625]) are exact
      rationals [Q], compared with [==].  The two that round
      ([x * 2 / 127.0] and [Math.pow(2, e) * m * 0.72]) are binary64
      floats, computed with the primitive IEEE 754 operations.
    - [return;] and falling off the end of the function give
      [undefined]: the decoders return [option], and [None] is
      [undefined].  A [var] that is never assigned is [undefined] too,
      so an optional field of a record is an [option].
    - A [Buffer] read outside the buffer throws [RangeError]; the
      decoders run in a small monad that carries the outcome and the
      list of byte offsets each read asked for. *)

From Stdlib Require Import Floats.PrimFloat.
Set Warnings "-inexact-float".
From Stdlib Require Uint63.
From Stdlib Require Import ZArith List Bool Lia QArith.
From Stdlib.Strings Require Import String Ascii Byte.
Import ListNotations.

Local Open Scope Z_scope.

(** ** Evaluation monad: outcome and offsets read *)

Module JS.

Inductive Exn : Type := RangeError.

Inductive Completion (A : Type) : Type :=
| Normal (a : A)
| Throw (e : Exn).

Arguments Normal {A} a.
Arguments Throw {A} e.

Record Eval (A : Type) : Type := mkEval {
  trace : list nat;
  outcome : Completion A
}.

Arguments mkEval {A} _ _.
Arguments trace {A} _.
Arguments outcome {A} _.

Definition ret {A : Type} (a : A) : Eval A := mkEval [] (Normal a).

Definition bind {A B : Type} (m : Eval A) (f : A -> Eval B) : Eval B :=
  match outcome m with
  | Normal a => let r := f a in mkEval (trace m ++ trace r) (outcome r)
  | Throw e => mkEval (trace m) (Throw e)
  end.

End JS.

Import JS.

(** The JavaScript number that holds the integer [v]; exact below 2^53. *)
Definition double (v : Z) : float :=
  if v <? 0 then PrimFloat.opp (PrimFloat.of_uint63 (Uint63.of_Z (- v)))
  else PrimFloat.of_uint63 (Uint63.of_Z v).

Declare Scope js_scope.
Delimit Scope js_scope with js.
Notation "x <- m ;; k" := (bind m (fun x => k))
  (at level 61, m at next level, right associativity) : js_scope.
Local Open Scope js_scope.

(** ** The Node.js Buffer reads the scripts use

    [Buffer] belongs to Node.js, not to the scripts.  Its methods are
    modelled after the Node.js documentation: [readUInt8], [readInt8],
    [readUInt16LE] and [readUInt32LE] throw [RangeError] unless the whole
    value lies inside the buffer, and [toString('hex', start, end)] clamps
    its range to the buffer and never throws. *)

Module Buffer.

Definition t : Type := list byte.

Definition u8 (b : byte) : Z := Z.of_N (Byte.to_N b).

(** [buf[offset]], with 0 standing for a missing byte. *)
Definition at_ (data : t) (offset : nat) : Z := u8 (nth offset data x00).

(** The offsets [offset, offset + n). *)
Definition span (offset n : nat) : list nat := seq offset n.

Definition readUInt8 (data : t) (offset : nat) : Eval Z :=
  mkEval (span offset 1)
    match nth_error data offset with
    | Some b => Normal (u8 b)
    | None => Throw RangeError
    end.

(** Two's complement reading of an unsigned 8-bit value. *)
Definition int8 (v : Z) : Z := if 127 <? v then v - 256 else v.

Definition readInt8 (data : t) (offset : nat) : Eval Z :=
  mkEval (span offset 1)
    match nth_error data offset with
    | Some b => Normal (int8 (u8 b))
    | None => Throw RangeError
    end.

Definition readUInt16LE (data : t) (offset : nat) : Eval Z :=
  mkEval (span offset 2)
    match nth_error data offset, nth_error data (offset + 1) with
    | Some first, Some last => Normal (u8 first + u8 last * 2 ^ 8)
    | _, _ => Throw RangeError
    end.

Definition readUInt32LE (data : t) (offset : nat) : Eval Z :=
  mkEval (span offset 4)
    match nth_error data offset, nth_error data (offset + 1),
          nth_error data (offset + 2), nth_error data (offset + 3) with
    | Some first, Some b1, Some b2, Some last =>
        Normal (u8 first + u8 b1 * 2 ^ 8 + u8 b2 * 2 ^ 16 + u8 last * 2 ^ 24)
    | _, _, _, _ => Throw RangeError
    end.

Definition hexDigit (n : Z) : ascii :=
  if n <? 10 then ascii_of_N (Z.to_N (48 + n))
  else ascii_of_N (Z.to_N (87 + n)).

Definition hexByte (b : byte) : string :=
  String (hexDigit (Z.shiftr (u8 b) 4))
    (String (hexDigit (Z.land (u8 b) 15)) EmptyString).

(** [buf.slice(start, end)]: both ends are clamped to the buffer. *)
Definition slice (data : t) (start end_ : nat) : t :=
  firstn (end_ - start) (skipn start data).

(** [buf.toString('hex', start, end)]: never throws; it reads the bytes of
    the clamped range only. *)
Definition toStringHex (data : t) (start end_ : nat) : Eval string :=
  mkEval (span start (List.length (slice data start end_)))
    (Normal (String.concat "" (map hexByte (slice data start end_)))).

End Buffer.

Import Buffer.

(** ** Records the decoders return *)

Inductive Unit : Type := seconds | minutes | hours | days | weeks.

Record Duration : Type := mkDuration {
  number : Z;
  unit : Unit
}.

Record Vec3 : Type := mkVec3 { x : Q; y : Q; z : Q }.

(** [{x, y, z}] whose components are rounded doubles. *)
Module Doubles.
Record Vec3 : Type := mkVec3 { x : float; y : float; z : float }.
End Doubles.

Record MotionStateDuration : Type := mkMotionStateDuration {
  current : Duration;
  previous : Duration
}.

(** ** The Nearable packet *)

Module Nearable.

Record Packet : Type := mkPacket {
  nearableId : string;
  temperature : Q;
  isMoving : bool;
  motionStateDuration : MotionStateDuration;
  acceleration : Vec3
}.

Definition parseMotionStateDuration (byte : Z) : Duration :=
  let number := Z.land byte 63 in
  let unitCode := Z.shiftr (Z.land byte 192) 6 in
  if unitCode =? 0 then mkDuration number seconds
  else if unitCode =? 1 then mkDuration number minutes
  else if unitCode =? 2 then mkDuration number hours
  else if (unitCode =? 3) && (number <? 32) then mkDuration number days
  else mkDuration (number - 32) weeks.

Definition parseEstimoteNearablePacket (data : Buffer.t)
  : Eval (option Packet) :=
  companyId <- readUInt16LE data 0 ;;
  if negb (companyId =? 0x015d) then ret None else
  frameType <- readUInt8 data 2 ;;
  if negb (frameType =? 0x01) then ret None else
  nearableId <- toStringHex data 3 11 ;;
  word <- readUInt16LE data 13 ;;
  let temperatureRawValue := Z.land word 0x0fff in
  let temperatureRawValue :=
    if 2047 <? temperatureRawValue then temperatureRawValue - 4096
    else temperatureRawValue in
  let temperature := (inject_Z temperatureRawValue / 16)%Q in
  flags <- readUInt8 data 15 ;;
  let isMoving := Z.land flags 64 =? 1 in
  ax <- readInt8 data 16 ;;
  ay <- readInt8 data 17 ;;
  az <- readInt8 data 18 ;;
  let acceleration :=
    mkVec3 (inject_Z ax * 15.625)%Q (inject_Z ay * 15.625)%Q
           (inject_Z az * 15.625)%Q in
  cur <- readUInt8 data 19 ;;
  prev <- readUInt8 data 20 ;;
  let motionStateDuration :=
    mkMotionStateDuration (parseMotionStateDuration cur)
                          (parseMotionStateDuration prev) in
  ret (Some (mkPacket nearableId temperature isMoving motionStateDuration
                      acceleration)).

End Nearable.

(** ** The Telemetry packet *)

Module Telemetry.

Inductive PinState : Type := high | low.

Record Gpio : Type := mkGpio {
  pin0 : PinState;
  pin1 : PinState;
  pin2 : PinState;
  pin3 : PinState
}.

Record Errors : Type := mkErrors {
  hasFirmwareError : bool;
  hasClockError : bool
}.

(** [uptimeUnit] is assigned by a [switch] without a [default]. *)
Record Uptime : Type := mkUptime {
  uptimeNumber : Z;
  uptimeUnit : option Unit
}.

Module SubframeA.
Record t : Type := mk {
  shortIdentifier : string;
  frameType : string;
  subFrameType : string;
  protocolVersion : Z;
  acceleration : Doubles.Vec3;
  isMoving : bool;
  motionStateDuration : MotionStateDuration;
  pressure : option Q;
  gpio : Gpio;
  errors : option Errors
}.
End SubframeA.

Module SubframeB.
Record t : Type := mk {
  shortIdentifier : string;
  frameType : string;
  subFrameType : string;
  protocolVersion : Z;
  magneticField : Vec3;
  ambientLightLevel : float;
  temperature : Q;
  uptime : Uptime;
  batteryVoltage : option Z;
  batteryLevel : option Z;
  errors : option Errors
}.
End SubframeB.

Inductive Packet : Type :=
| A (a : SubframeA.t)
| B (b : SubframeB.t).

(** Property lookups on the returned object: a key the object does not
    have reads as [undefined], like a key whose value is [undefined]. *)
Definition protocolVersion (p : Packet) : Z :=
  match p with
  | A a => SubframeA.protocolVersion a
  | B b => SubframeB.protocolVersion b
  end.

Definition subFrameType (p : Packet) : string :=
  match p with
  | A a => SubframeA.subFrameType a
  | B b => SubframeB.subFrameType b
  end.

Definition errors (p : Packet) : option Errors :=
  match p with
  | A a => SubframeA.errors a
  | B b => SubframeB.errors b
  end.

Definition pressure (p : Packet) : option Q :=
  match p with
  | A a => SubframeA.pressure a
  | B _ => None
  end.

Definition batteryVoltage (p : Packet) : option Z :=
  match p with
  | A _ => None
  | B b => SubframeB.batteryVoltage b
  end.

Definition batteryLevel (p : Packet) : option Z :=
  match p with
  | A _ => None
  | B b => SubframeB.batteryLevel b
  end.

Definition ESTIMOTE_FRAME_TYPE_TELEMETRY : Z := 2.
Definition ESTIMOTE_TELEMETRY_SUBFRAME_A : Z := 0.
Definition ESTIMOTE_TELEMETRY_SUBFRAME_B : Z := 1.

Definition parseMotionStateDuration (byte : Z) : Duration :=
  let number := Z.land byte 63 in
  let unitCode := Z.shiftr (Z.land byte 192) 6 in
  if unitCode =? 0 then mkDuration number seconds
  else if unitCode =? 1 then mkDuration number minutes
  else if unitCode =? 2 then mkDuration number hours
  else if (unitCode =? 3) && (number <=? 32) then mkDuration number days
  else mkDuration (number - 32) weeks.

(** [v ? 'high' : 'low'] *)
Definition pinState (v : Z) : PinState := if v =? 0 then low else high.

Definition parseSubframeA (data : Buffer.t) (shortIdentifier : string)
    (protocolVersion : Z) : Eval (option Packet) :=
  ax <- readInt8 data 10 ;;
  ay <- readInt8 data 11 ;;
  az <- readInt8 data 12 ;;
  let acceleration :=
    Doubles.mkVec3 (PrimFloat.div (double (ax * 2)) 127)
                   (PrimFloat.div (double (ay * 2)) 127)
                   (PrimFloat.div (double (az * 2)) 127) in
  m <- readUInt8 data 15 ;;
  let isMoving := Z.land m 3 =? 1 in
  prev <- readUInt8 data 13 ;;
  cur <- readUInt8 data 14 ;;
  let motionStateDuration :=
    mkMotionStateDuration (parseMotionStateDuration cur)
                          (parseMotionStateDuration prev) in
  g0 <- readUInt8 data 15 ;;
  g1 <- readUInt8 data 15 ;;
  g2 <- readUInt8 data 15 ;;
  g3 <- readUInt8 data 15 ;;
  let gpio :=
    mkGpio (pinState (Z.shiftr (Z.land g0 16) 4))
           (pinState (Z.shiftr (Z.land g1 32) 5))
           (pinState (Z.shiftr (Z.land g2 64) 6))
           (pinState (Z.shiftr (Z.land g3 128) 7)) in
  errors <-
    (if protocolVersion =? 2 then
       e0 <- readUInt8 data 15 ;;
       e1 <- readUInt8 data 15 ;;
       ret (Some (mkErrors (Z.shiftr (Z.land e0 4) 2 =? 1)
                           (Z.shiftr (Z.land e1 8) 3 =? 1)))
     else if protocolVersion =? 1 then
       e0 <- readUInt8 data 16 ;;
       e1 <- readUInt8 data 16 ;;
       ret (Some (mkErrors (Z.land e0 1 =? 1)
                           (Z.shiftr (Z.land e1 2) 1 =? 1)))
     else if protocolVersion =? 0 then ret None
     else ret None) ;;
  pressure <-
    (if protocolVersion =? 2 then
       raw <- readUInt32LE data 16 ;;
       ret (Some (inject_Z raw / 256)%Q)
     else ret None) ;;
  ret (Some (A (SubframeA.mk shortIdentifier "Estimote Telemetry" "A"
                  protocolVersion acceleration isMoving motionStateDuration
                  pressure gpio errors))).

Definition parseSubframeB (data : Buffer.t) (shortIdentifier : string)
    (protocolVersion : Z) : Eval (option Packet) :=
  mx <- readInt8 data 10 ;;
  my <- readInt8 data 11 ;;
  mz <- readInt8 data 12 ;;
  let magneticField :=
    mkVec3 (inject_Z mx / 128)%Q (inject_Z my / 128)%Q
           (inject_Z mz / 128)%Q in
  l0 <- readUInt8 data 13 ;;
  let ambientLightUpper := Z.shiftr (Z.land l0 240) 4 in
  l1 <- readUInt8 data 13 ;;
  let ambientLightLower := Z.land l1 15 in
  let ambientLightLevel :=
    PrimFloat.mul
      (PrimFloat.mul (double (2 ^ ambientLightUpper))
                     (double ambientLightLower))
      0.72 in
  u0 <- readUInt8 data 15 ;;
  let uptimeUnitCode := Z.shiftr (Z.land u0 48) 4 in
  let uptimeUnit :=
    if uptimeUnitCode =? 0 then Some seconds
    else if uptimeUnitCode =? 1 then Some minutes
    else if uptimeUnitCode =? 2 then Some hours
    else if uptimeUnitCode =? 3 then Some days
    else None in
  u1 <- readUInt8 data 15 ;;
  u2 <- readUInt8 data 14 ;;
  let uptime := mkUptime (Z.lor (Z.shiftl (Z.land u1 15) 8) u2) uptimeUnit in
  t17 <- readUInt8 data 17 ;;
  t16 <- readUInt8 data 16 ;;
  t15 <- readUInt8 data 15 ;;
  let temperatureRawValue :=
    Z.lor (Z.lor (Z.shiftl (Z.land t17 3) 10) (Z.shiftl t16 2))
          (Z.shiftr (Z.land t15 192) 6) in
  let temperatureRawValue :=
    if 2047 <? temperatureRawValue then temperatureRawValue - 4096
    else temperatureRawValue in
  (* [temperature] is assigned without [var]; the record below reads it
     back in the same call, so only the value matters here. *)
  let temperature := (inject_Z temperatureRawValue / 16)%Q in
  v18 <- readUInt8 data 18 ;;
  v17 <- readUInt8 data 17 ;;
  let batteryVoltage :=
    Z.lor (Z.shiftl v18 6) (Z.shiftr (Z.land v17 252) 2) in
  let batteryVoltage :=
    if batteryVoltage =? 16383 then None else Some batteryVoltage in
  errors <-
    (if protocolVersion =? 0 then
       e0 <- readUInt8 data 19 ;;
       e1 <- readUInt8 data 19 ;;
       ret (Some (mkErrors (Z.land e0 1 =? 1)
                           (Z.shiftr (Z.land e1 2) 1 =? 1)))
     else ret None) ;;
  batteryLevel <-
    (if 1 <=? protocolVersion then
       batteryLevel <- readUInt8 data 19 ;;
       ret (if batteryLevel =? 255 then None else Some batteryLevel)
     else ret None) ;;
  ret (Some (B (SubframeB.mk shortIdentifier "Estimote Telemetry" "B"
                  protocolVersion magneticField ambientLightLevel temperature
                  uptime batteryVoltage batteryLevel errors))).

Definition parseEstimoteTelemetryPacket (data : Buffer.t)
  : Eval (option Packet) :=
  f <- readUInt8 data 0 ;;
  let frameType := Z.land f 15 in
  if negb (frameType =? ESTIMOTE_FRAME_TYPE_TELEMETRY) then ret None else
  v <- readUInt8 data 0 ;;
  let protocolVersion := Z.shiftr (Z.land v 240) 4 in
  if 2 <? protocolVersion then ret None else
  shortIdentifier <- toStringHex data 1 9 ;;
  s <- readUInt8 data 9 ;;
  let subFrameType := Z.land s 3 in
  if subFrameType =? ESTIMOTE_TELEMETRY_SUBFRAME_A then
    parseSubframeA data shortIdentifier protocolVersion
  else if subFrameType =? ESTIMOTE_TELEMETRY_SUBFRAME_B then
    parseSubframeB data shortIdentifier protocolVersion
  else ret None.

End Telemetry.

(** ** The [discover] handlers

    Each script registers a handler for noble's [discover] event.  The
    handler's result is the list of values it passes to [console.log]; an
    exception of the decoder leaves the handler uncaught. *)

Module NearableScan.

(** [peripheral.advertisement]: [manufacturerData] is [undefined] when the
    advertisement carries none. *)
Record Advertisement : Type := mkAdvertisement {
  manufacturerData : option Buffer.t
}.

Record Peripheral : Type := mkPeripheral {
  advertisement : Advertisement
}.

Definition onDiscover (peripheral : Peripheral)
  : Eval (list Nearable.Packet) :=
  let data := manufacturerData (advertisement peripheral) in
  match data with
  | None => ret []
  | Some data =>
      nearablePacket <- Nearable.parseEstimoteNearablePacket data ;;
      match nearablePacket with
      | Some p => ret [p]
      | None => ret []
      end
  end.

End NearableScan.

Module TelemetryScan.

Definition ESTIMOTE_SERVICE_UUID : string := "fe9a".

Record ServiceData : Type := mkServiceData {
  uuid : string;
  data : Buffer.t
}.

Record Advertisement : Type := mkAdvertisement {
  serviceData : list ServiceData
}.

Record Peripheral : Type := mkPeripheral {
  advertisement : Advertisement
}.

Definition onDiscover (peripheral : Peripheral)
  : Eval (list Telemetry.Packet) :=
  let serviceData :=
    find (fun el => String.eqb (uuid el) ESTIMOTE_SERVICE_UUID)
         (serviceData (advertisement peripheral)) in
  match serviceData with
  | None => ret []
  | Some serviceData =>
      let data := data serviceData in
      telemetryPacket <- Telemetry.parseEstimoteTelemetryPacket data ;;
      match telemetryPacket with
      | Some p => ret [p]
      | None => ret []
      end
  end.

End TelemetryScan.

(** ** Example buffers *)

Definition nearable_vector : Buffer.t :=
  [x5d; x01; x01; x11; x22; x33; x44; x55; x66; x77; x88; x00; x00;
   x00; x10; x40; x0a; xec; x1e; x05; x05].

Definition telemetry_a2_vector : Buffer.t :=
  [x22; x11; x22; x33; x44; x55; x66; x77; x88; x00; x0a; xec; x1e;
   x05; x45; x16; xfc; x98; x88; x01].

Definition telemetry_b1_vector : Buffer.t :=
  [x12; x11; x22; x33; x44; x55; x66; x77; x88; x01; x0a; xec; x1e;
   x35; x2a; xd1; xff; xff; xff; xff].

(** Subframe B, version 1, battery at 2957 mV and 100 %. *)
Definition telemetry_b1_level_vector : Buffer.t :=
  [x12; x11; x22; x33; x44; x55; x66; x77; x88; x01; x0a; xec; x1e;
   x35; x2a; xd1; xff; x37; x2e; x64].

(** Subframe B, version 0, firmware error bit set in byte 19. *)
Definition telemetry_b0_vector : Buffer.t :=
  [x02; x11; x22; x33; x44; x55; x66; x77; x88; x01; x0a; xec; x1e;
   x35; x2a; xd1; xff; x37; x2e; x01].

(** Subframe A, version 0, lower 2 bits of byte 15 equal to 3. *)
Definition telemetry_a0_moving3_vector : Buffer.t :=
  [x02; x11; x22; x33; x44; x55; x66; x77; x88; x00; x0a; xec; x1e;
   x05; x45; x13; x00; x00; x00; x00].

(** Another vendor's manufacturer data. *)
Definition foreign_vector : Buffer.t :=
  [x4c; x00; x02; x15; x00; x00; x00; x00; x00; x02].

(** Estimote's company identifier with an unknown frame type. *)
Definition nearable_frame2_vector : Buffer.t := [x5d; x01; x02].

(** Frame type 2 with protocol version 3. *)
Definition telemetry_v3_vector : Buffer.t := [x32].

(** Frame type 2, version 2, subframe selector 2. *)
Definition telemetry_sub2_vector : Buffer.t :=
  [x22; x11; x22; x33; x44; x55; x66; x77; x88; x02].

(** [nearable_vector] and [telemetry_a2_vector] without their last byte. *)
Definition nearable_short_vector : Buffer.t := removelast nearable_vector.
Definition telemetry_short_vector : Buffer.t := removelast telemetry_a2_vector.

(** ** Offsets read and outcome *)

(** The outcome agrees with the offsets read: a normal outcome read only
    inside the buffer, and a throw comes with an offset outside it. *)
Definition faithful (data : Buffer.t) {A : Type} (m : Eval A) : Prop :=
  match outcome m with
  | Normal _ => Forall (fun o => (o < List.length data)%nat) (trace m)
  | Throw _ => Exists (fun o => (List.length data <= o)%nat) (trace m)
  end.

(** No offset read is above [n]. *)
Definition reads_upto (n : nat) {A : Type} (m : Eval A) : Prop :=
  Forall (fun o => (o <= n)%nat) (trace m).

(** Every offset read satisfies [P]. *)
Definition reads_only (P : nat -> Prop) {A : Type} (m : Eval A) : Prop :=
  Forall P (trace m).

(** [data'] holds the same bytes as [data] at the offsets [os]. *)
Definition same_bytes (data data' : Buffer.t) (os : list nat) : Prop :=
  Forall (fun o => nth_error data' o = nth_error data o) os.

(** [m'], run on [data'], repeats [m], run on [data], once [data'] holds
    the bytes [m] read. *)
Definition follows (data data' : Buffer.t) {A : Type} (m m' : Eval A) : Prop :=
  same_bytes data data' (trace m) -> m' = m.

(** The value of a hexadecimal digit as [toString('hex')] writes them,
    [0-9a-f]; any other character has none. *)
Definition hexDigitValue (c : ascii) : option Z :=
  let n := Z.of_N (N_of_ascii c) in
  if (48 <=? n) && (n <=? 57) then Some (n - 48)
  else if (97 <=? n) && (n <=? 102) then Some (n - 87)
  else None.

(** The bytes a string of hexadecimal digit pairs stands for; [None] for a
    string of odd length or with a character that is not a digit. *)
Fixpoint unhex (s : string) : option (list Z) :=
  match s with
  | EmptyString => Some []
  | String hi (String lo rest) =>
      match hexDigitValue hi, hexDigitValue lo, unhex rest with
      | Some h, Some l, Some bytes => Some (h * 16 + l :: bytes)
      | _, _, _ => None
      end
  | String _ EmptyString => None
  end.

(** ** Reasoning about evaluations *)

Section EvalFacts.

Context {A B : Type}.

Lemma outcome_bind (m : Eval A) (f : A -> Eval B) :
  outcome (bind m f) =
  match outcome m with
  | Normal a => outcome (f a)
  | Throw e => Throw e
  end.
Proof. unfold bind. destruct (outcome m); reflexivity. Qed.

Lemma trace_bind (m : Eval A) (f : A -> Eval B) :
  trace (bind m f) =
  match outcome m with
  | Normal a => trace m ++ trace (f a)
  | Throw _ => trace m
  end.
Proof. unfold bind. destruct (outcome m); reflexivity. Qed.

Lemma bind_Normal (m : Eval A) (f : A -> Eval B) (b : B) :
  outcome (bind m f) = Normal b ->
  exists a, outcome m = Normal a /\ outcome (f a) = Normal b.
Proof.
  rewrite outcome_bind. destruct (outcome m) as [a|e]; [|discriminate].
  intros H. exists a. split; [reflexivity|exact H].
Qed.

Lemma outcome_ret (a : A) : outcome (ret a) = Normal a.
Proof. reflexivity. Qed.

Lemma outcome_if (c : bool) (m1 m2 : Eval A) :
  outcome (if c then m1 else m2) = if c then outcome m1 else outcome m2.
Proof. destruct c; reflexivity. Qed.

End EvalFacts.

Section ReadFacts.

Variable data : Buffer.t.

Lemma nth_error_at (offset : nat) :
  (offset < List.length data)%nat ->
  nth_error data offset = Some (nth offset data x00).
Proof. intros H. apply nth_error_nth'. exact H. Qed.

Lemma nth_error_out (offset : nat) :
  (List.length data <= offset)%nat -> nth_error data offset = None.
Proof. intros H. apply nth_error_None. exact H. Qed.

Lemma readUInt8_in (offset : nat) :
  (offset < List.length data)%nat ->
  outcome (readUInt8 data offset) = Normal (at_ data offset).
Proof.
  intros H. unfold readUInt8. simpl.
  rewrite nth_error_at by exact H. reflexivity.
Qed.

Lemma readUInt8_Normal (offset : nat) (v : Z) :
  outcome (readUInt8 data offset) = Normal v ->
  (offset < List.length data)%nat /\ v = at_ data offset.
Proof.
  destruct (Nat.lt_ge_cases offset (List.length data)) as [H|H].
  - rewrite readUInt8_in by exact H. intros [= <-]. auto.
  - unfold readUInt8. simpl. rewrite nth_error_out by exact H. discriminate.
Qed.

Lemma readInt8_in (offset : nat) :
  (offset < List.length data)%nat ->
  outcome (readInt8 data offset) = Normal (int8 (at_ data offset)).
Proof.
  intros H. unfold readInt8. simpl.
  rewrite nth_error_at by exact H. reflexivity.
Qed.

Lemma readInt8_Normal (offset : nat) (v : Z) :
  outcome (readInt8 data offset) = Normal v ->
  (offset < List.length data)%nat /\ v = int8 (at_ data offset).
Proof.
  destruct (Nat.lt_ge_cases offset (List.length data)) as [H|H].
  - rewrite readInt8_in by exact H. intros [= <-]. auto.
  - unfold readInt8. simpl. rewrite nth_error_out by exact H. discriminate.
Qed.

Lemma readUInt16LE_in (offset : nat) :
  (offset + 1 < List.length data)%nat ->
  outcome (readUInt16LE data offset) =
  Normal (at_ data offset + at_ data (S offset) * 256).
Proof.
  intros H. unfold readUInt16LE. simpl.
  rewrite !nth_error_at by lia.
  replace (offset + 1)%nat with (S offset) by lia. reflexivity.
Qed.

Lemma readUInt16LE_Normal (offset : nat) (v : Z) :
  outcome (readUInt16LE data offset) = Normal v ->
  (offset + 1 < List.length data)%nat /\
  v = at_ data offset + at_ data (S offset) * 256.
Proof.
  destruct (Nat.lt_ge_cases (offset + 1) (List.length data)) as [H|H].
  - rewrite readUInt16LE_in by exact H. intros [= <-]. auto.
  - unfold readUInt16LE. simpl.
    rewrite (nth_error_out (offset + 1)) by exact H.
    destruct (nth_error data offset); discriminate.
Qed.

Lemma readUInt32LE_in (offset : nat) :
  (offset + 3 < List.length data)%nat ->
  outcome (readUInt32LE data offset) =
  Normal (at_ data offset + at_ data (S offset) * 256
          + at_ data (S (S offset)) * 65536
          + at_ data (S (S (S offset))) * 16777216).
Proof.
  intros H. unfold readUInt32LE. simpl.
  rewrite !nth_error_at by lia.
  replace (offset + 1)%nat with (S offset) by lia.
  replace (offset + 2)%nat with (S (S offset)) by lia.
  replace (offset + 3)%nat with (S (S (S offset))) by lia. reflexivity.
Qed.

Lemma readUInt32LE_Normal (offset : nat) (v : Z) :
  outcome (readUInt32LE data offset) = Normal v ->
  (offset + 3 < List.length data)%nat /\
  v = at_ data offset + at_ data (S offset) * 256
      + at_ data (S (S offset)) * 65536
      + at_ data (S (S (S offset))) * 16777216.
Proof.
  destruct (Nat.lt_ge_cases (offset + 3) (List.length data)) as [H|H].
  - rewrite readUInt32LE_in by exact H. intros [= <-]. auto.
  - unfold readUInt32LE. simpl.
    rewrite (nth_error_out (offset + 3)) by exact H.
    destruct (nth_error data offset), (nth_error data (offset + 1)),
      (nth_error data (offset + 2)); discriminate.
Qed.

Lemma toStringHex_outcome (start end_ : nat) :
  outcome (toStringHex data start end_) =
  Normal (String.concat "" (map hexByte (slice data start end_))).
Proof. reflexivity. Qed.

Lemma at_range (offset : nat) : 0 <= at_ data offset < 256.
Proof.
  unfold at_, u8. pose proof (Byte.to_N_bounded (nth offset data x00)). lia.
Qed.

End ReadFacts.

(** Inversion of [outcome m = Normal r], one statement of the decoder
    at a time. *)

Ltac inv_read H :=
  first
    [ apply readUInt8_Normal in H
    | apply readInt8_Normal in H
    | apply readUInt16LE_Normal in H
    | apply readUInt32LE_Normal in H ];
  let L := fresh "Hlen" in
  destruct H as [L H]; simpl in L; subst.

Ltac eval_inv H :=
  cbv beta zeta in H;
  lazymatch type of H with
  | outcome (bind (toStringHex _ _ _) _) = Normal _ =>
      rewrite outcome_bind, toStringHex_outcome in H; eval_inv H
  | outcome (bind _ _) = Normal _ =>
      let a := fresh "v" in
      let Ha := fresh "Hr" in
      apply bind_Normal in H; destruct H as (a & Ha & H);
      eval_inv Ha; eval_inv H
  | outcome (if ?c then _ else _) = Normal _ =>
      let E := fresh "Hc" in
      destruct c eqn:E; eval_inv H
  | outcome (ret _) = Normal _ =>
      unfold ret in H; cbn [outcome] in H;
      first [ discriminate H | injection H as H; try subst ]
  | outcome _ = Normal _ => inv_read H
  | _ => idtac
  end.

(** Evaluation of [outcome m] when the reads are in range and the tests
    are decided by the hypotheses. *)

Ltac cond_solve :=
  repeat match goal with
    | |- negb _ = true => apply negb_true_iff
    | |- negb _ = false => apply negb_false_iff
    end;
  first
    [ apply Z.eqb_eq | apply Z.eqb_neq | apply Z.ltb_lt | apply Z.ltb_ge
    | apply Z.leb_le | apply Z.leb_gt ];
  cbv zeta; lia.

Ltac eval_fwd :=
  repeat first
    [ rewrite outcome_bind
    | rewrite readUInt8_in by (simpl; lia)
    | rewrite readInt8_in by (simpl; lia)
    | rewrite readUInt16LE_in by (simpl; lia)
    | rewrite readUInt32LE_in by (simpl; lia)
    | rewrite toStringHex_outcome
    | rewrite outcome_ret
    | progress cbv beta iota zeta
    | match goal with
      | |- context [outcome (if ?c then _ else _)] =>
          first
            [ replace c with true by (symmetry; cond_solve)
            | replace c with false by (symmetry; cond_solve) ]
      end ].

(** ** Facts about bytes and bit fields *)

Section Bits.

Lemma below_forallb (P : Z -> bool) (n : nat) :
  forallb (fun k => P (Z.of_nat k)) (seq 0 n) = true ->
  forall v, 0 <= v < Z.of_nat n -> P v = true.
Proof.
  intros H v Hv. rewrite forallb_forall in H.
  specialize (H (Z.to_nat v)).
  rewrite Z2Nat.id in H by lia.
  apply H. apply in_seq. lia.
Qed.

Lemma land_single_bit_ne_1 (v : Z) (k : Z) :
  0 < k -> Z.land v (2 ^ k) <> 1.
Proof.
  intros Hk E.
  assert (Hb : Z.testbit (Z.land v (2 ^ k)) 0 = true)
    by (rewrite E; reflexivity).
  rewrite Z.land_spec, Z.pow2_bits_eqb in Hb by lia.
  destruct (Z.eqb_spec k 0); [lia|].
  rewrite andb_false_r in Hb. discriminate.
Qed.

Lemma lor_shiftl_low (h l k : Z) :
  0 <= k -> 0 <= l < 2 ^ k -> Z.lor (Z.shiftl h k) l = h * 2 ^ k + l.
Proof.
  intros Hk Hl.
  assert (Hd : Z.land (Z.shiftl h k) l = 0).
  { apply Z.bits_inj'. intros n Hn.
    rewrite Z.land_spec, Z.bits_0.
    destruct (Z.lt_ge_cases n k) as [Hlt|Hge].
    - rewrite Z.shiftl_spec_low by exact Hlt. reflexivity.
    - assert (Z.testbit l n = false); [|rewrite H; apply andb_false_r].
      destruct (Z.eq_dec l 0) as [->|Hnz]; [apply Z.bits_0|].
      apply Z.bits_above_log2; [lia|].
      apply Z.log2_lt_pow2; [lia|].
      apply Z.lt_le_trans with (2 ^ k); [lia|].
      apply Z.pow_le_mono_r; lia. }
  rewrite <- Z.lxor_lor by exact Hd.
  rewrite <- Z.add_nocarry_lxor by exact Hd.
  rewrite Z.shiftl_mul_pow2 by exact Hk. reflexivity.
Qed.

(** Equalities on one byte, checked on the 256 values. *)
Ltac by_byte_cases :=
  let b := fresh "b" in
  let Hb := fresh "Hb" in
  intros b Hb;
  first [ apply Z.eqb_eq | apply Bool.eqb_prop ];
  revert b Hb;
  match goal with
  | |- forall b, 0 <= b < 256 -> @?P b = true =>
      apply (below_forallb P 256); vm_compute; reflexivity
  end.

Lemma byte_land_240 : forall b, 0 <= b < 256 ->
  Z.shiftr (Z.land b 240) 4 = Z.shiftr b 4.
Proof. by_byte_cases. Qed.

Lemma byte_land_192 : forall b, 0 <= b < 256 ->
  Z.shiftr (Z.land b 192) 6 = b / 64.
Proof. by_byte_cases. Qed.

Lemma byte_land_252 : forall b, 0 <= b < 256 ->
  Z.shiftr (Z.land b 252) 2 = b / 4.
Proof. by_byte_cases. Qed.

Lemma byte_land_63 : forall b, 0 <= b < 256 -> Z.land b 63 = b mod 64.
Proof. by_byte_cases. Qed.

Lemma byte_land_240_div : forall b, 0 <= b < 256 ->
  Z.shiftr (Z.land b 240) 4 = b / 16.
Proof. by_byte_cases. Qed.

Lemma byte_land_15 : forall b, 0 <= b < 256 -> Z.land b 15 = b mod 16.
Proof. by_byte_cases. Qed.

Lemma byte_land_3 : forall b, 0 <= b < 256 -> Z.land b 3 = b mod 4.
Proof. by_byte_cases. Qed.

Lemma byte_bit0 : forall b, 0 <= b < 256 ->
  (Z.land b 1 =? 1) = Z.testbit b 0.
Proof. by_byte_cases. Qed.

Lemma byte_bit1 : forall b, 0 <= b < 256 ->
  (Z.shiftr (Z.land b 2) 1 =? 1) = Z.testbit b 1.
Proof. by_byte_cases. Qed.

Lemma byte_bit2 : forall b, 0 <= b < 256 ->
  (Z.shiftr (Z.land b 4) 2 =? 1) = Z.testbit b 2.
Proof. by_byte_cases. Qed.

Lemma byte_bit3 : forall b, 0 <= b < 256 ->
  (Z.shiftr (Z.land b 8) 3 =? 1) = Z.testbit b 3.
Proof. by_byte_cases. Qed.

Lemma byte_pin4 : forall b, 0 <= b < 256 ->
  (Z.shiftr (Z.land b 16) 4 =? 0) = negb (Z.testbit b 4).
Proof. by_byte_cases. Qed.

Lemma byte_pin5 : forall b, 0 <= b < 256 ->
  (Z.shiftr (Z.land b 32) 5 =? 0) = negb (Z.testbit b 5).
Proof. by_byte_cases. Qed.

Lemma byte_pin6 : forall b, 0 <= b < 256 ->
  (Z.shiftr (Z.land b 64) 6 =? 0) = negb (Z.testbit b 6).
Proof. by_byte_cases. Qed.

Lemma byte_pin7 : forall b, 0 <= b < 256 ->
  (Z.shiftr (Z.land b 128) 7 =? 0) = negb (Z.testbit b 7).
Proof. by_byte_cases. Qed.

Lemma byte_land_48 : forall b, 0 <= b < 256 ->
  Z.shiftr (Z.land b 48) 4 = (b / 16) mod 4.
Proof. by_byte_cases. Qed.

End Bits.

(** ** The Nearable decoder *)

(** What a returned Nearable record says about the buffer it came from. *)
Lemma nearable_fields (data : Buffer.t) (p : Nearable.Packet) :
  outcome (Nearable.parseEstimoteNearablePacket data) = Normal (Some p) ->
  (21 <= List.length data)%nat /\
  at_ data 0 + at_ data 1 * 256 = 0x015d /\
  at_ data 2 = 0x01 /\
  Nearable.isMoving p = (Z.land (at_ data 15) 64 =? 1) /\
  Nearable.temperature p =
    (inject_Z
       (let raw := Z.land (at_ data 13 + at_ data 14 * 256) 0x0fff in
        if 2047 <? raw then raw - 4096 else raw) / 16)%Q.
Proof.
  intros H. unfold Nearable.parseEstimoteNearablePacket in H.
  eval_inv H.
  apply negb_false_iff, Z.eqb_eq in Hc, Hc0.
  cbn [Nearable.isMoving Nearable.temperature].
  repeat split; solve [lia | assumption | reflexivity].
Qed.

(** A long enough buffer that carries both discriminators decodes to a
    record. *)
Lemma nearable_returns (data : Buffer.t) :
  (21 <= List.length data)%nat ->
  at_ data 0 + at_ data 1 * 256 = 0x015d ->
  at_ data 2 = 0x01 ->
  exists p,
    outcome (Nearable.parseEstimoteNearablePacket data) = Normal (Some p).
Proof.
  intros Hlen Hid Hft. unfold Nearable.parseEstimoteNearablePacket.
  eval_fwd. eexists. reflexivity.
Qed.

Lemma nearable_isMoving_false (data : Buffer.t) (p : Nearable.Packet) :
  outcome (Nearable.parseEstimoteNearablePacket data) = Normal (Some p) ->
  Nearable.isMoving p = false.
Proof.
  intros H. apply nearable_fields in H.
  destruct H as (_ & _ & _ & -> & _).
  apply Z.eqb_neq. apply (land_single_bit_ne_1 _ 6). lia.
Qed.

(** ** The Telemetry decoder *)

(** The checks on bytes 0 and 9, and the subframe decoder a returned
    record came from. *)
Lemma telemetry_dispatch_inv (data : Buffer.t) (p : Telemetry.Packet) :
  outcome (Telemetry.parseEstimoteTelemetryPacket data) = Normal (Some p) ->
  exists shortIdentifier,
    let v := Z.shiftr (at_ data 0) 4 in
    (10 <= List.length data)%nat /\
    Z.land (at_ data 0) 15 = 2 /\ v <= 2 /\
    ((Z.land (at_ data 9) 3 = 0 /\
      outcome (Telemetry.parseSubframeA data shortIdentifier v)
        = Normal (Some p)) \/
     (Z.land (at_ data 9) 3 = 1 /\
      outcome (Telemetry.parseSubframeB data shortIdentifier v)
        = Normal (Some p))).
Proof.
  intros H. unfold Telemetry.parseEstimoteTelemetryPacket in H.
  unfold Telemetry.ESTIMOTE_FRAME_TYPE_TELEMETRY,
    Telemetry.ESTIMOTE_TELEMETRY_SUBFRAME_A,
    Telemetry.ESTIMOTE_TELEMETRY_SUBFRAME_B in H.
  apply bind_Normal in H. destruct H as (f & Hf & H). inv_read Hf.
  cbv beta zeta in H.
  destruct (negb (Z.land (at_ data 0) 15 =? 2)) eqn:Hft;
    [eval_inv H|].
  apply negb_false_iff, Z.eqb_eq in Hft.
  apply bind_Normal in H. destruct H as (v & Hv & H). inv_read Hv.
  cbv beta zeta in H.
  rewrite (byte_land_240 _ (at_range data 0)) in H.
  destruct (2 <? Z.shiftr (at_ data 0) 4) eqn:Hver; [eval_inv H|].
  apply Z.ltb_ge in Hver.
  rewrite outcome_bind, toStringHex_outcome in H.
  apply bind_Normal in H. destruct H as (s & Hs & H). inv_read Hs.
  cbv beta zeta in H.
  eexists. cbv zeta.
  split; [lia|]. split; [exact Hft|]. split; [exact Hver|].
  destruct (Z.land (at_ data 9) 3 =? 0) eqn:Ha.
  - left. apply Z.eqb_eq in Ha. split; [exact Ha|exact H].
  - destruct (Z.land (at_ data 9) 3 =? 1) eqn:Hb.
    + right. apply Z.eqb_eq in Hb. split; [exact Hb|exact H].
    + eval_inv H.
Qed.

Lemma telemetry_dispatch (data : Buffer.t) :
  (10 <= List.length data)%nat ->
  Z.land (at_ data 0) 15 = 2 ->
  Z.shiftr (at_ data 0) 4 <= 2 ->
  exists shortIdentifier,
    outcome (Telemetry.parseEstimoteTelemetryPacket data) =
    let v := Z.shiftr (at_ data 0) 4 in
    if Z.land (at_ data 9) 3 =? 0 then
      outcome (Telemetry.parseSubframeA data shortIdentifier v)
    else if Z.land (at_ data 9) 3 =? 1 then
      outcome (Telemetry.parseSubframeB data shortIdentifier v)
    else Normal None.
Proof.
  intros Hlen Hft Hver. unfold Telemetry.parseEstimoteTelemetryPacket.
  unfold Telemetry.ESTIMOTE_FRAME_TYPE_TELEMETRY,
    Telemetry.ESTIMOTE_TELEMETRY_SUBFRAME_A,
    Telemetry.ESTIMOTE_TELEMETRY_SUBFRAME_B.
  pose proof (byte_land_240 _ (at_range data 0)) as Hhi.
  eval_fwd. rewrite Hhi. eexists. cbv zeta.
  rewrite !outcome_if. reflexivity.
Qed.

Lemma subframeA_fields (data : Buffer.t) (shortIdentifier : string) (v : Z)
    (r : option Telemetry.Packet) :
  outcome (Telemetry.parseSubframeA data shortIdentifier v) = Normal r ->
  exists a,
    r = Some (Telemetry.A a) /\
    (16 <= List.length data)%nat /\
    (v = 1 -> (17 <= List.length data)%nat) /\
    (v = 2 -> (20 <= List.length data)%nat) /\
    Telemetry.SubframeA.subFrameType a = "A"%string /\
    Telemetry.SubframeA.protocolVersion a = v /\
    Telemetry.SubframeA.isMoving a = (Z.land (at_ data 15) 3 =? 1) /\
    Telemetry.SubframeA.errors a =
      (if v =? 2 then
         Some (Telemetry.mkErrors (Z.testbit (at_ data 15) 2)
                                  (Z.testbit (at_ data 15) 3))
       else if v =? 1 then
         Some (Telemetry.mkErrors (Z.testbit (at_ data 16) 0)
                                  (Z.testbit (at_ data 16) 1))
       else None) /\
    Telemetry.SubframeA.pressure a =
      (if v =? 2 then
         Some (inject_Z (at_ data 16 + at_ data 17 * 256
                         + at_ data 18 * 65536 + at_ data 19 * 16777216)
               / 256)%Q
       else None).
Proof.
  intros H. unfold Telemetry.parseSubframeA in H.
  pose proof (at_range data 15) as R15.
  pose proof (at_range data 16) as R16.
  eval_inv H; eexists; (split; [reflexivity|]);
    cbn [Telemetry.SubframeA.subFrameType
         Telemetry.SubframeA.protocolVersion Telemetry.SubframeA.isMoving
         Telemetry.SubframeA.errors Telemetry.SubframeA.pressure];
    rewrite ?byte_bit0, ?byte_bit1, ?byte_bit2, ?byte_bit3 by assumption;
    repeat match goal with
      | H : (_ =? _) = true |- _ => apply Z.eqb_eq in H
      | H : (_ =? _) = false |- _ => apply Z.eqb_neq in H
      end;
    repeat split; try reflexivity; try lia.
Qed.

Lemma subframeA_returns (data : Buffer.t) (shortIdentifier : string) (v : Z) :
  (20 <= List.length data)%nat ->
  exists a,
    outcome (Telemetry.parseSubframeA data shortIdentifier v)
      = Normal (Some (Telemetry.A a)).
Proof.
  intros Hlen. unfold Telemetry.parseSubframeA.
  eval_fwd.
  destruct (v =? 2); eval_fwd; [eexists; reflexivity|].
  destruct (v =? 1); eval_fwd; [eexists; reflexivity|].
  destruct (v =? 0); eval_fwd; eexists; reflexivity.
Qed.

Lemma subframeB_fields (data : Buffer.t) (shortIdentifier : string) (v : Z)
    (r : option Telemetry.Packet) :
  0 <= v ->
  outcome (Telemetry.parseSubframeB data shortIdentifier v) = Normal r ->
  exists b,
    r = Some (Telemetry.B b) /\
    (20 <= List.length data)%nat /\
    Telemetry.SubframeB.subFrameType b = "B"%string /\
    Telemetry.SubframeB.protocolVersion b = v /\
    Telemetry.SubframeB.temperature b =
      (inject_Z
         (let raw :=
            Z.lor (Z.lor (Z.shiftl (Z.land (at_ data 17) 3) 10)
                         (Z.shiftl (at_ data 16) 2))
                  (Z.shiftr (Z.land (at_ data 15) 192) 6) in
          if 2047 <? raw then raw - 4096 else raw) / 16)%Q /\
    Telemetry.SubframeB.batteryVoltage b =
      (let raw := Z.lor (Z.shiftl (at_ data 18) 6)
                        (Z.shiftr (Z.land (at_ data 17) 252) 2) in
       if raw =? 16383 then None else Some raw) /\
    Telemetry.SubframeB.batteryLevel b =
      (if 1 <=? v then
         if at_ data 19 =? 255 then None else Some (at_ data 19)
       else None) /\
    Telemetry.SubframeB.errors b =
      (if v =? 0 then
         Some (Telemetry.mkErrors (Z.testbit (at_ data 19) 0)
                                  (Z.testbit (at_ data 19) 1))
       else None).
Proof.
  intros Hv H. unfold Telemetry.parseSubframeB in H.
  pose proof (at_range data 19) as R19.
  eval_inv H; eexists; (split; [reflexivity|]);
    cbn [Telemetry.SubframeB.subFrameType
         Telemetry.SubframeB.protocolVersion Telemetry.SubframeB.temperature
         Telemetry.SubframeB.batteryVoltage Telemetry.SubframeB.batteryLevel
         Telemetry.SubframeB.errors];
    rewrite ?byte_bit0, ?byte_bit1 by assumption;
    repeat split; try reflexivity; try lia.
Qed.

Lemma subframeB_returns (data : Buffer.t) (shortIdentifier : string) (v : Z) :
  (20 <= List.length data)%nat ->
  exists b,
    outcome (Telemetry.parseSubframeB data shortIdentifier v)
      = Normal (Some (Telemetry.B b)).
Proof.
  intros Hlen. unfold Telemetry.parseSubframeB.
  eval_fwd.
  destruct (v =? 0); eval_fwd;
    (destruct (1 <=? v); eval_fwd; eexists; reflexivity).
Qed.

(** What a returned Telemetry record says about the buffer: the subframe
    it is, and the fields of that subframe. *)
Lemma telemetry_fields (data : Buffer.t) (p : Telemetry.Packet) :
  outcome (Telemetry.parseEstimoteTelemetryPacket data) = Normal (Some p) ->
  let v := Z.shiftr (at_ data 0) 4 in
  Z.land (at_ data 0) 15 = 2 /\ 0 <= v <= 2 /\
  ((Z.land (at_ data 9) 3 = 0 /\
    exists shortIdentifier,
      outcome (Telemetry.parseSubframeA data shortIdentifier v)
        = Normal (Some p)) \/
   (Z.land (at_ data 9) 3 = 1 /\
    exists shortIdentifier,
      outcome (Telemetry.parseSubframeB data shortIdentifier v)
        = Normal (Some p))).
Proof.
  intros H. apply telemetry_dispatch_inv in H.
  destruct H as (sid & _ & Hft & Hv & H). cbv zeta.
  split; [exact Hft|]. split.
  - split; [|exact Hv]. apply Z.shiftr_nonneg. apply at_range.
  - destruct H as [[Hs H]|[Hs H]]; [left|right]; (split; [exact Hs|]);
      exists sid; exact H.
Qed.

(** A long enough buffer with frame type 2 and a known version decodes to a
    record of the subframe byte 9 selects. *)
Lemma telemetry_returns (data : Buffer.t) :
  (20 <= List.length data)%nat ->
  Z.land (at_ data 0) 15 = 2 ->
  Z.shiftr (at_ data 0) 4 <= 2 ->
  (Z.land (at_ data 9) 3 = 0 ->
   exists a, outcome (Telemetry.parseEstimoteTelemetryPacket data)
             = Normal (Some (Telemetry.A a))) /\
  (Z.land (at_ data 9) 3 = 1 ->
   exists b, outcome (Telemetry.parseEstimoteTelemetryPacket data)
             = Normal (Some (Telemetry.B b))).
Proof.
  intros Hlen Hft Hv.
  destruct (telemetry_dispatch data) as [sid Hd]; [lia|exact Hft|exact Hv|].
  cbv zeta in Hd. split; intros Hs; rewrite Hs in Hd; cbn [Z.eqb] in Hd;
    rewrite Hd.
  - apply subframeA_returns. exact Hlen.
  - apply subframeB_returns. exact Hlen.
Qed.

(** ** Telemetry subframe B fields *)

Lemma subframeB_of_packet (data : Buffer.t) (b : Telemetry.SubframeB.t) :
  outcome (Telemetry.parseEstimoteTelemetryPacket data)
    = Normal (Some (Telemetry.B b)) ->
  exists shortIdentifier,
    0 <= Z.shiftr (at_ data 0) 4 <= 2 /\
    outcome (Telemetry.parseSubframeB data shortIdentifier
               (Z.shiftr (at_ data 0) 4))
      = Normal (Some (Telemetry.B b)).
Proof.
  intros H.
  destruct (telemetry_fields _ _ H) as (_ & Hv & [[_ [sid Hs]]|[_ [sid Hs]]]).
  - apply subframeA_fields in Hs. destruct Hs as (a & [=] & _).
  - exists sid. split; [exact Hv|exact Hs].
Qed.

Lemma temperature_raw_value (b15 b16 b17 : Z) :
  0 <= b15 < 256 -> 0 <= b16 < 256 -> 0 <= b17 < 256 ->
  Z.lor (Z.lor (Z.shiftl (Z.land b17 3) 10) (Z.shiftl b16 2))
        (Z.shiftr (Z.land b15 192) 6)
  = (b17 mod 4) * 1024 + b16 * 4 + b15 / 64.
Proof.
  intros H15 H16 H17.
  rewrite (byte_land_3 _ H17), (byte_land_192 _ H15).
  assert (0 <= b15 / 64 < 4)
    by (split; [apply Z.div_pos|apply Z.div_lt_upper_bound]; lia).
  pose proof (Z.mod_pos_bound b17 4 ltac:(lia)).
  rewrite <- Z.lor_assoc.
  rewrite (lor_shiftl_low b16 (b15 / 64) 2) by (simpl; lia).
  rewrite lor_shiftl_low by (simpl; lia).
  change (2 ^ 10) with 1024. change (2 ^ 2) with 4. lia.
Qed.

(** ** Offsets read *)

Section Traces.

Variable data : Buffer.t.

Lemma faithful_ret {A : Type} (a : A) : faithful data (ret a).
Proof. constructor. Qed.

Lemma faithful_bind {A B : Type} (m : Eval A) (f : A -> Eval B) :
  faithful data m -> (forall a, faithful data (f a)) ->
  faithful data (bind m f).
Proof.
  unfold faithful. intros Hm Hf.
  rewrite outcome_bind, trace_bind.
  destruct (outcome m) as [a|e]; [|exact Hm].
  specialize (Hf a). destruct (outcome (f a)).
  - apply Forall_app. split; assumption.
  - apply Exists_app. right. exact Hf.
Qed.

Lemma faithful_if {A : Type} (c : bool) (m1 m2 : Eval A) :
  faithful data m1 -> faithful data m2 -> faithful data (if c then m1 else m2).
Proof. destruct c; auto. Qed.

Lemma nth_error_lt (offset : nat) (b : byte) :
  nth_error data offset = Some b -> (offset < List.length data)%nat.
Proof. intros H. apply nth_error_Some. congruence. Qed.

Lemma nth_error_ge (offset : nat) :
  nth_error data offset = None -> (List.length data <= offset)%nat.
Proof. intros H. apply nth_error_None. exact H. Qed.

Ltac faithful_read :=
  unfold faithful; cbn [outcome trace span seq];
  repeat match goal with
    | |- context [match nth_error data ?o with _ => _ end] =>
        let E := fresh "E" in
        destruct (nth_error data o) eqn:E;
        [apply nth_error_lt in E | apply nth_error_ge in E]
    end;
  [ repeat constructor; lia
  | apply Exists_exists; eexists; (split; [|eassumption]); simpl; lia .. ].

Lemma faithful_readUInt8 (offset : nat) : faithful data (readUInt8 data offset).
Proof. unfold readUInt8. faithful_read. Qed.

Lemma faithful_readInt8 (offset : nat) : faithful data (readInt8 data offset).
Proof. unfold readInt8. faithful_read. Qed.

Lemma faithful_readUInt16LE (offset : nat) :
  faithful data (readUInt16LE data offset).
Proof. unfold readUInt16LE. faithful_read. Qed.

Lemma faithful_readUInt32LE (offset : nat) :
  faithful data (readUInt32LE data offset).
Proof. unfold readUInt32LE. faithful_read. Qed.

Lemma slice_length (start end_ : nat) :
  (List.length (slice data start end_) <= end_ - start)%nat /\
  (List.length (slice data start end_) <= List.length data - start)%nat.
Proof.
  unfold slice. rewrite length_firstn, length_skipn. lia.
Qed.

Lemma faithful_toStringHex (start end_ : nat) :
  faithful data (toStringHex data start end_).
Proof.
  unfold faithful, toStringHex, span. cbn [outcome trace].
  apply Forall_forall. intros o Ho. apply in_seq in Ho.
  pose proof (slice_length start end_). lia.
Qed.

Lemma upto_ret (n : nat) {A : Type} (a : A) : reads_upto n (ret a).
Proof. constructor. Qed.

Lemma upto_bind (n : nat) {A B : Type} (m : Eval A) (f : A -> Eval B) :
  reads_upto n m -> (forall a, reads_upto n (f a)) -> reads_upto n (bind m f).
Proof.
  unfold reads_upto. intros Hm Hf. rewrite trace_bind.
  destruct (outcome m) as [a|e]; [|exact Hm].
  apply Forall_app. split; [exact Hm|apply Hf].
Qed.

Lemma upto_if (n : nat) {A : Type} (c : bool) (m1 m2 : Eval A) :
  reads_upto n m1 -> reads_upto n m2 -> reads_upto n (if c then m1 else m2).
Proof. destruct c; auto. Qed.

Lemma span_upto (n offset k : nat) :
  (offset + k <= S n)%nat -> Forall (fun o => (o <= n)%nat) (span offset k).
Proof.
  intros H. apply Forall_forall. intros o Ho. apply in_seq in Ho. lia.
Qed.

Lemma upto_toStringHex (n start end_ : nat) :
  (end_ <= S n)%nat -> reads_upto n (toStringHex data start end_).
Proof.
  intros H. unfold reads_upto, toStringHex, span. cbn [trace].
  apply Forall_forall. intros o Ho. apply in_seq in Ho.
  pose proof (slice_length start end_). lia.
Qed.

End Traces.

Ltac faithful_walk :=
  repeat first
    [ progress cbv zeta
    | apply faithful_bind; [|intros ?]
    | apply faithful_if
    | apply faithful_ret
    | apply faithful_readUInt8
    | apply faithful_readInt8
    | apply faithful_readUInt16LE
    | apply faithful_readUInt32LE
    | apply faithful_toStringHex ].

Ltac upto_walk :=
  repeat first
    [ progress cbv zeta
    | apply upto_bind; [|intros ?]
    | apply upto_if
    | apply upto_ret
    | apply upto_toStringHex; lia
    | apply span_upto; simpl; lia ].

Lemma nearable_faithful (data : Buffer.t) :
  faithful data (Nearable.parseEstimoteNearablePacket data).
Proof. unfold Nearable.parseEstimoteNearablePacket. faithful_walk. Qed.

Lemma telemetry_faithful (data : Buffer.t) :
  faithful data (Telemetry.parseEstimoteTelemetryPacket data).
Proof.
  unfold Telemetry.parseEstimoteTelemetryPacket, Telemetry.parseSubframeA,
    Telemetry.parseSubframeB.
  faithful_walk.
Qed.

Lemma nearable_upto (data : Buffer.t) :
  reads_upto 20 (Nearable.parseEstimoteNearablePacket data).
Proof. unfold Nearable.parseEstimoteNearablePacket. upto_walk. Qed.

Lemma telemetry_upto (data : Buffer.t) :
  reads_upto 19 (Telemetry.parseEstimoteTelemetryPacket data).
Proof.
  unfold Telemetry.parseEstimoteTelemetryPacket, Telemetry.parseSubframeA,
    Telemetry.parseSubframeB.
  upto_walk.
Qed.

Lemma faithful_total (data : Buffer.t) (n : nat) {A : Type} (m : Eval A) :
  faithful data m -> reads_upto n m -> (n < List.length data)%nat ->
  Forall (fun o => (o < List.length data)%nat) (trace m) /\
  exists r, outcome m = Normal r.
Proof.
  unfold faithful, reads_upto. intros Hf Hu Hn.
  assert (Hin : Forall (fun o => (o < List.length data)%nat) (trace m)).
  { eapply Forall_impl; [|exact Hu]. simpl. intros o Ho. lia. }
  split; [exact Hin|].
  destruct (outcome m) as [r|e]; [exists r; reflexivity|].
  apply Exists_exists in Hf. destruct Hf as (o & Ho & Hge).
  rewrite Forall_forall in Hin. specialize (Hin o Ho). lia.
Qed.

Lemma faithful_throw (data : Buffer.t) {A : Type} (m : Eval A) :
  faithful data m ->
  (Exists (fun o => (List.length data <= o)%nat) (trace m) <->
   outcome m = Throw RangeError).
Proof.
  unfold faithful. intros Hf. split.
  - intros Hex. destruct (outcome m) as [r|[]]; [|reflexivity].
    apply Exists_exists in Hex. destruct Hex as (o & Ho & Hge).
    rewrite Forall_forall in Hf. specialize (Hf o Ho). lia.
  - intros Ht. rewrite Ht in Hf. exact Hf.
Qed.

(** ** Optional fields, by subframe and version of the record *)

Lemma optional_fields_by_record (data : Buffer.t) (p : Telemetry.Packet) :
  outcome (Telemetry.parseEstimoteTelemetryPacket data) = Normal (Some p) ->
  let v := Telemetry.protocolVersion p in
  let sub := Telemetry.subFrameType p in
  (sub = "A"%string \/ sub = "B"%string) /\
  (v = 0 \/ v = 1 \/ v = 2) /\
  (sub = "A"%string -> v = 2 ->
   Telemetry.errors p =
     Some (Telemetry.mkErrors (Z.testbit (at_ data 15) 2)
                              (Z.testbit (at_ data 15) 3))) /\
  (sub = "A"%string -> v = 1 ->
   Telemetry.errors p =
     Some (Telemetry.mkErrors (Z.testbit (at_ data 16) 0)
                              (Z.testbit (at_ data 16) 1))) /\
  (sub = "B"%string -> v = 0 ->
   Telemetry.errors p =
     Some (Telemetry.mkErrors (Z.testbit (at_ data 19) 0)
                              (Z.testbit (at_ data 19) 1))) /\
  (Telemetry.errors p <> None <->
   (sub = "A"%string /\ (v = 1 \/ v = 2)) \/ (sub = "B"%string /\ v = 0)) /\
  (Telemetry.pressure p <> None <-> sub = "A"%string /\ v = 2) /\
  (Telemetry.batteryLevel p <> None -> sub = "B"%string /\ 1 <= v).
Proof.
  intros H.
  destruct (telemetry_fields _ _ H) as (_ & Hv & [[_ [sid Hs]]|[_ [sid Hs]]]).
  - apply subframeA_fields in Hs.
    destruct Hs as (a & [= ->] & _ & _ & _ & Hsub & Hpv & _ & He & Hp).
    cbn [Telemetry.protocolVersion Telemetry.subFrameType Telemetry.errors
         Telemetry.pressure Telemetry.batteryLevel].
    rewrite Hsub, Hpv, He, Hp. clear Hsub Hpv He Hp.
    set (v := Z.shiftr (at_ data 0) 4) in *.
    assert (Hc : v = 0 \/ v = 1 \/ v = 2) by lia.
    split; [left; reflexivity|]. split; [exact Hc|].
    destruct Hc as [-> | [-> | ->]]; cbn [Z.eqb Pos.eqb];
      repeat split; intros; try reflexivity; try discriminate;
      try lia; try congruence; intuition (try discriminate; try lia).
  - apply subframeB_fields in Hs; [|lia].
    destruct Hs as (b & [= ->] & _ & Hsub & Hpv & _ & _ & Hbl & He).
    cbn [Telemetry.protocolVersion Telemetry.subFrameType Telemetry.errors
         Telemetry.pressure Telemetry.batteryLevel].
    rewrite Hsub, Hpv, He, Hbl. clear Hsub Hpv He Hbl.
    set (v := Z.shiftr (at_ data 0) 4) in *.
    assert (Hc : v = 0 \/ v = 1 \/ v = 2) by lia.
    split; [right; reflexivity|]. split; [exact Hc|].
    destruct Hc as [-> | [-> | ->]];
      cbn [Z.eqb Pos.eqb Z.leb Z.compare Pos.compare Pos.compare_cont];
      repeat split; intros; try reflexivity; try discriminate;
      try lia; try congruence;
      intuition (try discriminate; try lia; try congruence).
Qed.

(** ** The example buffers, decoded *)

Example nearable_vector_decodes :
  exists p,
    outcome (Nearable.parseEstimoteNearablePacket nearable_vector)
      = Normal (Some p) /\
    Nearable.nearableId p = "1122334455667788"%string /\
    (x (Nearable.acceleration p) == 156.25)%Q /\
    (y (Nearable.acceleration p) == -312.5)%Q /\
    Nearable.motionStateDuration p
      = mkMotionStateDuration (mkDuration 5 seconds) (mkDuration 5 seconds).
Proof.
  eexists. split; [vm_compute; reflexivity|].
  repeat split; vm_compute; reflexivity.
Qed.

Example telemetry_b1_vector_decodes :
  exists b,
    outcome (Telemetry.parseEstimoteTelemetryPacket telemetry_b1_vector)
      = Normal (Some (Telemetry.B b)) /\
    Telemetry.SubframeB.protocolVersion b = 1 /\
    Telemetry.SubframeB.uptime b = Telemetry.mkUptime 298 (Some minutes) /\
    Telemetry.SubframeB.ambientLightLevel b = 28.799999999999997%float.
Proof.
  eexists. split; [vm_compute; reflexivity|].
  repeat split; vm_compute; reflexivity.
Qed.

Example nearable_short_vector_throws :
  outcome (Nearable.parseEstimoteNearablePacket nearable_short_vector)
    = Throw RangeError /\
  trace (Nearable.parseEstimoteNearablePacket nearable_short_vector)
    = [0; 1; 2; 3; 4; 5; 6; 7; 8; 9; 10; 13; 14; 15; 16; 17; 18; 19; 20]%nat.
Proof. split; vm_compute; reflexivity. Qed.

(** * The claims *)

(** C1 (the code departs from the claim).  The claim: a Nearable buffer
    that passes both discriminator checks and has bit 6 of byte 15 set
    decodes to a record with [isMoving = true].  On [nearable_vector],
    whose byte 15 is [0b01000000], the decoder returns a record with
    [isMoving = false]: it compares the masked value with 1. *)
Theorem C1_isMoving_false_with_bit6_set :
  Z.testbit (at_ nearable_vector 15) 6 = true /\
  exists p,
    outcome (Nearable.parseEstimoteNearablePacket nearable_vector)
      = Normal (Some p) /\
    Nearable.isMoving p = false.
Proof.
  split; [reflexivity|].
  destruct (nearable_returns nearable_vector) as [p Hp];
    [simpl; lia | reflexivity | reflexivity |].
  exists p. split; [exact Hp|].
  exact (nearable_isMoving_false _ _ Hp).
Qed.

(** C2.  Nearable: byte [0b11011111] is 31 days and [0b11100000] is
    0 weeks.  Telemetry: unit code 3 with magnitude 32 is 32 days and with
    magnitude 33 is 1 week.  In both decoders unit codes 0, 1 and 2 are
    seconds, minutes and hours and leave the 6-bit magnitude unchanged;
    under unit code 3 the Nearable decoder switches to weeks at magnitude
    32 and the Telemetry decoder at magnitude 33. *)
Theorem C2_duration_thresholds (byte : Z) :
  0 <= byte < 256 ->
  Nearable.parseMotionStateDuration 0xdf = mkDuration 31 days /\
  Nearable.parseMotionStateDuration 0xe0 = mkDuration 0 weeks /\
  Telemetry.parseMotionStateDuration (3 * 64 + 32) = mkDuration 32 days /\
  Telemetry.parseMotionStateDuration (3 * 64 + 33) = mkDuration 1 weeks /\
  let magnitude := byte mod 64 in
  let unitCode := byte / 64 in
  (unitCode = 0 ->
   Nearable.parseMotionStateDuration byte = mkDuration magnitude seconds /\
   Telemetry.parseMotionStateDuration byte = mkDuration magnitude seconds) /\
  (unitCode = 1 ->
   Nearable.parseMotionStateDuration byte = mkDuration magnitude minutes /\
   Telemetry.parseMotionStateDuration byte = mkDuration magnitude minutes) /\
  (unitCode = 2 ->
   Nearable.parseMotionStateDuration byte = mkDuration magnitude hours /\
   Telemetry.parseMotionStateDuration byte = mkDuration magnitude hours) /\
  (unitCode = 3 ->
   Nearable.parseMotionStateDuration byte =
     (if magnitude <? 32 then mkDuration magnitude days
      else mkDuration (magnitude - 32) weeks) /\
   Telemetry.parseMotionStateDuration byte =
     (if magnitude <=? 32 then mkDuration magnitude days
      else mkDuration (magnitude - 32) weeks)).
Proof.
  intros Hb.
  do 4 (split; [reflexivity|]).
  cbv zeta.
  unfold Nearable.parseMotionStateDuration, Telemetry.parseMotionStateDuration.
  rewrite (byte_land_192 byte Hb), (byte_land_63 byte Hb).
  assert (0 <= byte / 64 < 4)
    by (split; [apply Z.div_pos|apply Z.div_lt_upper_bound]; lia).
  repeat match goal with
    | |- _ /\ _ => split
    | |- _ = _ -> _ => let Hc := fresh in intros Hc; rewrite Hc
    end; reflexivity.
Qed.

Lemma C2_duration_thresholds_witness :
  Nearable.parseMotionStateDuration 0x87 = mkDuration 7 hours /\
  Telemetry.parseMotionStateDuration 0x87 = mkDuration 7 hours.
Proof.
  apply (C2_duration_thresholds 0x87); [lia | reflexivity].
Defined.

(** C3, as amended.  Every Telemetry buffer of subframe A and protocol
    version 2 with bytes 0xFC, 0x98, 0x88, 0x01 at offsets 16 to 19
    decodes to a record whose pressure is the unsigned 32-bit
    little-endian value 0x018898FC = 25729276 divided by 256, which is
    100504.984375 Pa over exact rationals. *)
Theorem C3_pressure_example (data : Buffer.t) :
  (20 <= List.length data)%nat ->
  Z.land (at_ data 0) 15 = 2 ->
  Z.shiftr (at_ data 0) 4 = 2 ->
  Z.land (at_ data 9) 3 = 0 ->
  at_ data 16 = 0xFC -> at_ data 17 = 0x98 ->
  at_ data 18 = 0x88 -> at_ data 19 = 0x01 ->
  exists a q,
    outcome (Telemetry.parseEstimoteTelemetryPacket data)
      = Normal (Some (Telemetry.A a)) /\
    Telemetry.SubframeA.protocolVersion a = 2 /\
    Telemetry.SubframeA.pressure a = Some q /\
    (q == inject_Z 0x018898FC / 256)%Q /\
    (q == 100504.984375)%Q.
Proof.
  intros Hlen Hft Hv Hs H16 H17 H18 H19.
  destruct (telemetry_returns data Hlen Hft) as [HA _]; [lia|].
  destruct (HA Hs) as [a Ha]. clear HA.
  destruct (telemetry_fields _ _ Ha) as (_ & _ & [[_ [sid H]]|[Hs' _]]);
    [|lia].
  apply subframeA_fields in H.
  destruct H as (a' & [= <-] & _ & _ & _ & _ & Hpv & _ & _ & Hp).
  rewrite Hv in Hpv, Hp. cbn [Z.eqb Pos.eqb] in Hp.
  rewrite H16, H17, H18, H19 in Hp.
  eexists a, _. split; [exact Ha|]. split; [exact Hpv|].
  split; [exact Hp|]. split; vm_compute; reflexivity.
Qed.

Lemma C3_pressure_example_witness :
  exists a q,
    outcome (Telemetry.parseEstimoteTelemetryPacket telemetry_a2_vector)
      = Normal (Some (Telemetry.A a)) /\
    Telemetry.SubframeA.protocolVersion a = 2 /\
    Telemetry.SubframeA.pressure a = Some q /\
    (q == inject_Z 0x018898FC / 256)%Q /\
    (q == 100504.984375)%Q.
Proof.
  apply (C3_pressure_example telemetry_a2_vector);
    solve [simpl; lia | reflexivity].
Defined.

(** C3 as stated fails: [telemetry_a2_vector] is a subframe A, version 2
    buffer with bytes 0xFC, 0x98, 0x88, 0x01 at offsets 16 to 19, and the
    pressure of its record is not 100505 (256 * 100505 is 25729280, not
    25729276). *)
Lemma C3_pressure_not_100505 :
  Z.land (at_ telemetry_a2_vector 0) 15 = 2 /\
  Z.shiftr (at_ telemetry_a2_vector 0) 4 = 2 /\
  Z.land (at_ telemetry_a2_vector 9) 3 = 0 /\
  map (at_ telemetry_a2_vector) [16; 17; 18; 19]%nat
    = [0xFC; 0x98; 0x88; 0x01] /\
  exists a q,
    outcome (Telemetry.parseEstimoteTelemetryPacket telemetry_a2_vector)
      = Normal (Some (Telemetry.A a)) /\
    Telemetry.SubframeA.pressure a = Some q /\
    ~ (q == 100505)%Q.
Proof.
  do 4 (split; [reflexivity|]).
  eexists _, _. split; [vm_compute; reflexivity|].
  split; [reflexivity|].
  vm_compute. discriminate.
Qed.

(** C4.  In every subframe B record the temperature is [s / 16], where the
    12-bit raw value has the low 2 bits of byte 17 as bits 10 and 11, byte
    16 as bits 2 to 9 and the top 2 bits of byte 15 as bits 0 and 1, and
    [s] is the raw value when it is at most 2047 and the raw value minus
    4096 when it lies in 2048 .. 4095. *)
Theorem C4_subframeB_temperature (data : Buffer.t) (b : Telemetry.SubframeB.t) :
  outcome (Telemetry.parseEstimoteTelemetryPacket data)
    = Normal (Some (Telemetry.B b)) ->
  let raw := (at_ data 17 mod 4) * 1024 + at_ data 16 * 4 + at_ data 15 / 64 in
  let s := if raw <=? 2047 then raw else raw - 4096 in
  raw = Z.lor (Z.lor (Z.shiftl (at_ data 17 mod 4) 10)
                     (Z.shiftl (at_ data 16) 2))
              (Z.shiftr (at_ data 15) 6) /\
  0 <= raw <= 4095 /\
  -2048 <= s <= 2047 /\
  (Telemetry.SubframeB.temperature b == inject_Z s / 16)%Q.
Proof.
  intros H. destruct (subframeB_of_packet _ _ H) as (sid & Hv & Hs).
  apply subframeB_fields in Hs; [|lia].
  destruct Hs as (b' & [= <-] & _ & _ & _ & Ht & _).
  pose proof (at_range data 15) as R15.
  pose proof (at_range data 16) as R16.
  pose proof (at_range data 17) as R17.
  rewrite temperature_raw_value in Ht by assumption.
  cbv zeta in Ht. cbv zeta.
  assert (0 <= at_ data 15 / 64 < 4)
    by (split; [apply Z.div_pos|apply Z.div_lt_upper_bound]; lia).
  pose proof (Z.mod_pos_bound (at_ data 17) 4 ltac:(lia)).
  set (raw := at_ data 17 mod 4 * 1024 + at_ data 16 * 4 + at_ data 15 / 64)
    in *.
  assert (Hraw : 0 <= raw <= 4095) by (unfold raw; lia).
  split.
  - unfold raw.
    rewrite <- (temperature_raw_value _ _ _ R15 R16 R17).
    rewrite (byte_land_3 _ R17), (byte_land_192 _ R15).
    rewrite Z.shiftr_div_pow2 by lia. reflexivity.
  - split; [exact Hraw|].
    rewrite Ht.
    destruct (Z.ltb_spec 2047 raw), (Z.leb_spec raw 2047); try lia;
      (split; [lia|reflexivity]).
Qed.

Lemma C4_subframeB_temperature_witness :
  exists b,
    outcome (Telemetry.parseEstimoteTelemetryPacket telemetry_b1_vector)
      = Normal (Some (Telemetry.B b)) /\
    (Telemetry.SubframeB.temperature b == inject_Z (-1) / 16)%Q.
Proof.
  eexists. split; [vm_compute; reflexivity|].
  refine (proj2 (proj2 (proj2
    (C4_subframeB_temperature telemetry_b1_vector _ _)))).
  vm_compute. reflexivity.
Defined.

(** C5.  The Nearable decoder returns [undefined], without throwing, when
    the 16-bit little-endian company identifier at offset 0 is not 0x015d
    or the frame type byte at offset 2 is not 0x01.  The Telemetry decoder
    returns [undefined], without throwing, when the lower 4 bits of byte 0
    are not 2, when the upper 4 bits of byte 0 exceed 2, or when the lower
    2 bits of byte 9 are neither 0 nor 1.  Each case asks only that the
    bytes it names are in the buffer. *)
Theorem C5_discriminators_give_undefined (data : Buffer.t) :
  ((2 <= List.length data)%nat ->
   at_ data 0 + at_ data 1 * 256 <> 0x015d ->
   outcome (Nearable.parseEstimoteNearablePacket data) = Normal None) /\
  ((3 <= List.length data)%nat ->
   at_ data 2 <> 0x01 ->
   outcome (Nearable.parseEstimoteNearablePacket data) = Normal None) /\
  ((1 <= List.length data)%nat ->
   at_ data 0 mod 16 <> 2 ->
   outcome (Telemetry.parseEstimoteTelemetryPacket data) = Normal None) /\
  ((1 <= List.length data)%nat ->
   2 < at_ data 0 / 16 ->
   outcome (Telemetry.parseEstimoteTelemetryPacket data) = Normal None) /\
  ((10 <= List.length data)%nat ->
   at_ data 9 mod 4 <> 0 -> at_ data 9 mod 4 <> 1 ->
   outcome (Telemetry.parseEstimoteTelemetryPacket data) = Normal None).
Proof.
  pose proof (at_range data 0) as R0.
  pose proof (at_range data 9) as R9.
  pose proof (byte_land_240_div _ R0) as Hhi.
  pose proof (byte_land_15 _ R0) as Hlo.
  pose proof (byte_land_3 _ R9) as Hsub.
  unfold Telemetry.parseEstimoteTelemetryPacket,
    Telemetry.ESTIMOTE_FRAME_TYPE_TELEMETRY,
    Telemetry.ESTIMOTE_TELEMETRY_SUBFRAME_A,
    Telemetry.ESTIMOTE_TELEMETRY_SUBFRAME_B.
  unfold Nearable.parseEstimoteNearablePacket.
  repeat split.
  - intros Hlen Hid. eval_fwd. reflexivity.
  - intros Hlen Hft.
    destruct (Z.eq_dec (at_ data 0 + at_ data 1 * 256) 0x015d);
      eval_fwd; reflexivity.
  - intros Hlen Hft. eval_fwd. reflexivity.
  - intros Hlen Hv.
    destruct (Z.eq_dec (at_ data 0 mod 16) 2); eval_fwd; reflexivity.
  - intros Hlen Hs0 Hs1.
    destruct (Z.eq_dec (at_ data 0 mod 16) 2); [|eval_fwd; reflexivity].
    destruct (Z_le_gt_dec (at_ data 0 / 16) 2); eval_fwd; reflexivity.
Qed.

Lemma C5_discriminators_give_undefined_witness :
  outcome (Nearable.parseEstimoteNearablePacket foreign_vector)
    = Normal None /\
  outcome (Nearable.parseEstimoteNearablePacket nearable_frame2_vector)
    = Normal None /\
  outcome (Telemetry.parseEstimoteTelemetryPacket foreign_vector)
    = Normal None /\
  outcome (Telemetry.parseEstimoteTelemetryPacket telemetry_v3_vector)
    = Normal None /\
  outcome (Telemetry.parseEstimoteTelemetryPacket telemetry_sub2_vector)
    = Normal None.
Proof.
  pose proof (C5_discriminators_give_undefined foreign_vector)
    as (Hid & _ & Hft & _).
  pose proof (C5_discriminators_give_undefined nearable_frame2_vector)
    as (_ & Hnft & _).
  pose proof (C5_discriminators_give_undefined telemetry_v3_vector)
    as (_ & _ & _ & Hver & _).
  pose proof (C5_discriminators_give_undefined telemetry_sub2_vector)
    as (_ & _ & _ & _ & Hsub).
  split; [apply Hid; [simpl; lia | vm_compute; discriminate]|].
  split; [apply Hnft; [simpl; lia | vm_compute; discriminate]|].
  split; [apply Hft; [simpl; lia | vm_compute; discriminate]|].
  split; [apply Hver; [simpl; lia | vm_compute; reflexivity]|].
  apply Hsub; [simpl; lia | vm_compute; discriminate ..].
Defined.

(** C6.  In every record the Telemetry decoder returns, the protocol
    version is the upper 4 bits of byte 0 and the subframe is the one the
    lower 2 bits of byte 9 select (0 for A, 1 for B).  [errors] is present
    exactly for subframe A with protocol version 1 or 2 and for subframe B
    with protocol version 0, read from bits 2 and 3 of byte 15 (subframe
    A, version 2), bits 0 and 1 of byte 16 (subframe A, version 1) or
    bits 0 and 1 of byte 19 (subframe B, version 0); [pressure] is present
    exactly for subframe A with version 2; [batteryLevel] is present only
    for subframe B with version 1 or more, and there exactly when byte 19
    is not 255.  Elsewhere the field is [undefined]. *)
Theorem C6_optional_fields (data : Buffer.t) (p : Telemetry.Packet) :
  outcome (Telemetry.parseEstimoteTelemetryPacket data) = Normal (Some p) ->
  let v := Telemetry.protocolVersion p in
  let sub := Telemetry.subFrameType p in
  (sub = "A"%string \/ sub = "B"%string) /\
  (v = 0 \/ v = 1 \/ v = 2) /\
  (sub = "A"%string -> v = 2 ->
   Telemetry.errors p =
     Some (Telemetry.mkErrors (Z.testbit (at_ data 15) 2)
                              (Z.testbit (at_ data 15) 3))) /\
  (sub = "A"%string -> v = 1 ->
   Telemetry.errors p =
     Some (Telemetry.mkErrors (Z.testbit (at_ data 16) 0)
                              (Z.testbit (at_ data 16) 1))) /\
  (sub = "B"%string -> v = 0 ->
   Telemetry.errors p =
     Some (Telemetry.mkErrors (Z.testbit (at_ data 19) 0)
                              (Z.testbit (at_ data 19) 1))) /\
  (Telemetry.errors p <> None <->
   (sub = "A"%string /\ (v = 1 \/ v = 2)) \/ (sub = "B"%string /\ v = 0)) /\
  (Telemetry.pressure p <> None <-> sub = "A"%string /\ v = 2) /\
  (Telemetry.batteryLevel p <> None -> sub = "B"%string /\ 1 <= v) /\
  v = at_ data 0 / 16 /\
  (sub = "A"%string <-> at_ data 9 mod 4 = 0) /\
  (sub = "B"%string <-> at_ data 9 mod 4 = 1) /\
  (Telemetry.batteryLevel p <> None <->
   sub = "B"%string /\ 1 <= v /\ at_ data 19 <> 255).
Proof.
  intros H. cbv zeta.
  pose proof (optional_fields_by_record data p H) as Hrec. cbv zeta in Hrec.
  destruct Hrec as (H1 & H2 & H3 & H4 & H5 & H6 & H7 & H8).
  do 8 (split; [assumption|]).
  pose proof (at_range data 0) as R0.
  pose proof (at_range data 9) as R9.
  assert (Hsh : Z.shiftr (at_ data 0) 4 = at_ data 0 / 16)
    by (rewrite Z.shiftr_div_pow2 by lia; reflexivity).
  destruct (telemetry_fields _ _ H)
    as (_ & Hv & [[Hs9 [sid Hs]]|[Hs9 [sid Hs]]]);
    rewrite (byte_land_3 _ R9) in Hs9.
  - apply subframeA_fields in Hs.
    destruct Hs as (a & [= ->] & _ & _ & _ & Hsub & Hpv & _).
    cbn [Telemetry.protocolVersion Telemetry.subFrameType
         Telemetry.batteryLevel].
    rewrite Hsub, Hpv, Hsh.
    split; [reflexivity|].
    split; [split; [intros _; exact Hs9|reflexivity]|].
    split; [split; [discriminate|lia]|].
    split; [intros Hn; contradiction Hn; reflexivity|].
    intros (Hb & _). discriminate Hb.
  - apply subframeB_fields in Hs; [|lia].
    destruct Hs as (b & [= ->] & _ & Hsub & Hpv & _ & _ & Hbl & _).
    cbn [Telemetry.protocolVersion Telemetry.subFrameType
         Telemetry.batteryLevel].
    rewrite Hsub, Hpv, Hbl, Hsh.
    split; [reflexivity|].
    split; [split; [discriminate|lia]|].
    split; [split; [intros _; exact Hs9|reflexivity]|].
    destruct (Z.leb_spec 1 (at_ data 0 / 16)) as [Hge|Hlt].
    + destruct (Z.eqb_spec (at_ data 19) 255) as [E|E].
      * split; [intros Hn; contradiction Hn; reflexivity|].
        intros (_ & _ & Hne). contradiction.
      * split; [intros _; auto|discriminate].
    + split; [intros Hn; contradiction Hn; reflexivity|].
      intros (_ & Hge & _). lia.
Qed.

Lemma C6_optional_fields_witness :
  (exists p,
     outcome (Telemetry.parseEstimoteTelemetryPacket telemetry_a2_vector)
       = Normal (Some p) /\
     Telemetry.protocolVersion p = 2 /\
     Telemetry.errors p = Some (Telemetry.mkErrors true false) /\
     Telemetry.pressure p <> None /\
     Telemetry.batteryLevel p = None) /\
  (exists p,
     outcome (Telemetry.parseEstimoteTelemetryPacket
                telemetry_b1_level_vector)
       = Normal (Some p) /\
     Telemetry.protocolVersion p = 1 /\
     Telemetry.subFrameType p = "B"%string /\
     ~ Telemetry.errors p <> None /\
     Telemetry.batteryLevel p <> None) /\
  (exists p,
     outcome (Telemetry.parseEstimoteTelemetryPacket telemetry_b0_vector)
       = Normal (Some p) /\
     Telemetry.protocolVersion p = 0 /\
     Telemetry.errors p = Some (Telemetry.mkErrors true false) /\
     ~ Telemetry.batteryLevel p <> None).
Proof.
  split; [|split].
  - eexists. split; [vm_compute; reflexivity|].
    pose proof (C6_optional_fields telemetry_a2_vector _ eq_refl)
      as (_ & _ & He & _ & _ & _ & Hp & _ & Hv & _).
    split; [exact Hv|].
    split; [apply He; reflexivity|].
    split; [apply Hp; split; reflexivity|reflexivity].
  - eexists. split; [vm_compute; reflexivity|].
    pose proof (C6_optional_fields telemetry_b1_level_vector _ eq_refl)
      as (_ & _ & _ & _ & _ & He & _ & _ & Hv & _ & Hb & Hl).
    split; [exact Hv|].
    split; [apply Hb; reflexivity|].
    split.
    + intros Hn. apply He in Hn.
      destruct Hn as [[Ha _]|[_ H0]]; discriminate.
    + apply Hl. split; [reflexivity|].
      split; vm_compute; discriminate.
  - eexists. split; [vm_compute; reflexivity|].
    pose proof (C6_optional_fields telemetry_b0_vector _ eq_refl)
      as (_ & _ & _ & _ & He & _ & _ & _ & Hv & _ & _ & Hl).
    split; [exact Hv|].
    split; [apply He; reflexivity|].
    intros Hn. apply Hl in Hn. destruct Hn as (_ & Hge & _).
    vm_compute in Hge. apply Hge. reflexivity.
Defined.

(** C7.  Neither decoder asks for an offset above 20 (Nearable) or 19
    (Telemetry), and those two offsets are read.  On a buffer of 21 bytes
    or more every offset read lies inside the buffer and both decoders
    finish without throwing.  On any buffer, a decoder reads an offset at
    or past the end exactly when it throws [RangeError], which is not the
    [undefined] result. *)
Theorem C7_reads_in_range_or_RangeError (data : Buffer.t) :
  let n := Nearable.parseEstimoteNearablePacket data in
  let t := Telemetry.parseEstimoteTelemetryPacket data in
  (Forall (fun o => (o <= 20)%nat) (trace n) /\
   Forall (fun o => (o <= 19)%nat) (trace t)) /\
  (In 20%nat (trace (Nearable.parseEstimoteNearablePacket nearable_vector)) /\
   In 19%nat (trace (Telemetry.parseEstimoteTelemetryPacket
                       telemetry_b1_vector))) /\
  ((21 <= List.length data)%nat ->
   Forall (fun o => (o < List.length data)%nat) (trace n) /\
   Forall (fun o => (o < List.length data)%nat) (trace t) /\
   (exists r, outcome n = Normal r) /\
   (exists r, outcome t = Normal r)) /\
  (Exists (fun o => (List.length data <= o)%nat) (trace n) <->
   outcome n = Throw RangeError) /\
  (Exists (fun o => (List.length data <= o)%nat) (trace t) <->
   outcome t = Throw RangeError) /\
  (outcome n = Throw RangeError -> outcome n <> Normal None) /\
  (outcome t = Throw RangeError -> outcome t <> Normal None).
Proof.
  cbv zeta.
  split; [split; [apply nearable_upto|apply telemetry_upto]|].
  split; [split; vm_compute; tauto|].
  split.
  - intros Hlen.
    destruct (faithful_total data 20 _ (nearable_faithful data)
                (nearable_upto data)) as [Hn Hn']; [lia|].
    destruct (faithful_total data 19 _ (telemetry_faithful data)
                (telemetry_upto data)) as [Ht Ht']; [lia|].
    auto.
  - split; [apply faithful_throw, nearable_faithful|].
    split; [apply faithful_throw, telemetry_faithful|].
    split; intros ->; discriminate.
Qed.

Lemma C7_reads_in_range_or_RangeError_witness :
  (exists r, outcome (Nearable.parseEstimoteNearablePacket nearable_vector)
             = Normal r) /\
  (exists r, outcome (Telemetry.parseEstimoteTelemetryPacket nearable_vector)
             = Normal r) /\
  outcome (Nearable.parseEstimoteNearablePacket nearable_short_vector)
    = Throw RangeError /\
  outcome (Telemetry.parseEstimoteTelemetryPacket telemetry_short_vector)
    = Throw RangeError /\
  outcome (Telemetry.parseEstimoteTelemetryPacket telemetry_short_vector)
    <> Normal None.
Proof.
  pose proof (C7_reads_in_range_or_RangeError nearable_vector)
    as (_ & _ & Hlong & _).
  destruct Hlong as (_ & _ & Hn & Ht); [simpl; lia|].
  pose proof (C7_reads_in_range_or_RangeError nearable_short_vector)
    as (_ & _ & _ & Hsn & _).
  pose proof (C7_reads_in_range_or_RangeError telemetry_short_vector)
    as (_ & _ & _ & _ & Hst & _ & Hd).
  assert (Hthrow :
    outcome (Telemetry.parseEstimoteTelemetryPacket telemetry_short_vector)
      = Throw RangeError).
  { apply Hst. apply Exists_exists. exists 19%nat.
    split; [vm_compute; tauto|simpl; lia]. }
  split; [exact Hn|]. split; [exact Ht|].
  split.
  { apply Hsn. apply Exists_exists. exists 20%nat.
    split; [vm_compute; tauto|simpl; lia]. }
  split; [exact Hthrow|exact (Hd Hthrow)].
Defined.

(** C8.  In every subframe B record: when the 14-bit battery voltage (top 6
    bits of byte 17 as its low bits, byte 18 as its high bits) has all 14
    bits set, [batteryVoltage] is absent, and otherwise it is that value;
    the protocol version is the upper 4 bits of byte 0, and for version 1
    or more, when byte 19 is 255 [batteryLevel] is absent, and otherwise
    it is byte 19. *)
Theorem C8_battery_sentinels (data : Buffer.t) (b : Telemetry.SubframeB.t) :
  outcome (Telemetry.parseEstimoteTelemetryPacket data)
    = Normal (Some (Telemetry.B b)) ->
  let voltage := at_ data 18 * 64 + at_ data 17 / 4 in
  0 <= voltage <= 16383 /\
  (voltage = 16383 <-> at_ data 18 = 255 /\ at_ data 17 / 4 = 63) /\
  (voltage = 16383 -> Telemetry.SubframeB.batteryVoltage b = None) /\
  (voltage <> 16383 ->
   Telemetry.SubframeB.batteryVoltage b = Some voltage) /\
  (1 <= Telemetry.SubframeB.protocolVersion b ->
   at_ data 19 = 255 -> Telemetry.SubframeB.batteryLevel b = None) /\
  (1 <= Telemetry.SubframeB.protocolVersion b ->
   at_ data 19 <> 255 ->
   Telemetry.SubframeB.batteryLevel b = Some (at_ data 19)) /\
  Telemetry.SubframeB.protocolVersion b = at_ data 0 / 16 /\
  Telemetry.SubframeB.batteryLevel b
  = (if 1 <=? at_ data 0 / 16 then
       if at_ data 19 =? 255 then None else Some (at_ data 19)
     else None).
Proof.
  intros H. destruct (subframeB_of_packet _ _ H) as (sid & Hv & Hs).
  apply subframeB_fields in Hs; [|lia].
  destruct Hs as (b' & [= <-] & _ & _ & Hpv & _ & Hbv & Hbl & _).
  pose proof (at_range data 0) as R0.
  pose proof (at_range data 17) as R17.
  pose proof (at_range data 18) as R18.
  assert (Hsh : Z.shiftr (at_ data 0) 4 = at_ data 0 / 16)
    by (rewrite Z.shiftr_div_pow2 by lia; reflexivity).
  rewrite Hsh in Hpv, Hbl.
  assert (0 <= at_ data 17 / 4 < 64)
    by (split; [apply Z.div_pos|apply Z.div_lt_upper_bound]; lia).
  rewrite (byte_land_252 _ R17) in Hbv.
  rewrite lor_shiftl_low in Hbv by (simpl; lia).
  change (2 ^ 6) with 64 in Hbv. cbv zeta in Hbv. cbv zeta.
  rewrite Hpv, Hbv, Hbl.
  split; [lia|]. split; [lia|].
  split; [intros ->; reflexivity|].
  split; [intros Hne; apply Z.eqb_neq in Hne; rewrite Hne; reflexivity|].
  split; [|split; [|split; reflexivity]];
    intros Hge Hb; apply Z.leb_le in Hge; rewrite Hge.
  - rewrite Hb. reflexivity.
  - apply Z.eqb_neq in Hb. rewrite Hb. reflexivity.
Qed.

Lemma C8_battery_sentinels_witness :
  (exists b,
     outcome (Telemetry.parseEstimoteTelemetryPacket telemetry_b1_vector)
       = Normal (Some (Telemetry.B b)) /\
     Telemetry.SubframeB.batteryVoltage b = None /\
     Telemetry.SubframeB.batteryLevel b = None) /\
  (exists b,
     outcome (Telemetry.parseEstimoteTelemetryPacket
                telemetry_b1_level_vector)
       = Normal (Some (Telemetry.B b)) /\
     Telemetry.SubframeB.protocolVersion b = 1 /\
     Telemetry.SubframeB.batteryVoltage b = Some 2957 /\
     Telemetry.SubframeB.batteryLevel b = Some 100) /\
  (exists b,
     outcome (Telemetry.parseEstimoteTelemetryPacket telemetry_b0_vector)
       = Normal (Some (Telemetry.B b)) /\
     Telemetry.SubframeB.protocolVersion b = 0 /\
     Telemetry.SubframeB.batteryVoltage b = Some 2957 /\
     Telemetry.SubframeB.batteryLevel b = None).
Proof.
  split; [|split].
  - eexists. split; [vm_compute; reflexivity|].
    pose proof (C8_battery_sentinels telemetry_b1_vector _ eq_refl)
      as (_ & _ & Hv & _ & Hl & _).
    split; [apply Hv; reflexivity|].
    apply Hl; [vm_compute; discriminate|reflexivity].
  - eexists. split; [vm_compute; reflexivity|].
    pose proof (C8_battery_sentinels telemetry_b1_level_vector _ eq_refl)
      as (_ & _ & _ & Hv & _ & Hl & Hpv & _).
    split; [exact Hpv|].
    split; [apply Hv; vm_compute; discriminate|].
    apply Hl; vm_compute; discriminate.
  - eexists. split; [vm_compute; reflexivity|].
    pose proof (C8_battery_sentinels telemetry_b0_vector _ eq_refl)
      as (_ & _ & _ & Hv & _ & _ & Hpv & Hl).
    split; [exact Hpv|].
    split; [apply Hv; vm_compute; discriminate|exact Hl].
Defined.

(** C9, as amended.  A Nearable buffer of 21 bytes or more that passes both
    discriminator checks and has bytes 0x00, 0x10 at offsets 13 and 14
    decodes to a record whose temperature is 0: the word 0x1000 has no bit
    among the 12 the decoder keeps. *)
Theorem C9_temperature_of_0x1000 (data : Buffer.t) :
  (21 <= List.length data)%nat ->
  at_ data 0 + at_ data 1 * 256 = 0x015d ->
  at_ data 2 = 0x01 ->
  at_ data 13 = 0x00 -> at_ data 14 = 0x10 ->
  exists p,
    outcome (Nearable.parseEstimoteNearablePacket data) = Normal (Some p) /\
    (Nearable.temperature p == 0)%Q.
Proof.
  intros Hlen Hid Hft H13 H14.
  destruct (nearable_returns data Hlen Hid Hft) as [p Hp].
  exists p. split; [exact Hp|].
  destruct (nearable_fields _ _ Hp) as (_ & _ & _ & _ & Ht).
  rewrite Ht, H13, H14. vm_compute. reflexivity.
Qed.

Lemma C9_temperature_of_0x1000_witness :
  exists p,
    outcome (Nearable.parseEstimoteNearablePacket nearable_vector)
      = Normal (Some p) /\
    (Nearable.temperature p == 0)%Q.
Proof.
  apply (C9_temperature_of_0x1000 nearable_vector);
    solve [simpl; lia | reflexivity].
Defined.

(** C9 as stated fails: [nearable_vector] passes both discriminator checks
    and has bytes 0x00, 0x10 at offsets 13 and 14, and the temperature of
    its record is not 16. *)
Lemma C9_temperature_not_16 :
  at_ nearable_vector 0 + at_ nearable_vector 1 * 256 = 0x015d /\
  at_ nearable_vector 2 = 0x01 /\
  at_ nearable_vector 13 = 0x00 /\ at_ nearable_vector 14 = 0x10 /\
  exists p,
    outcome (Nearable.parseEstimoteNearablePacket nearable_vector)
      = Normal (Some p) /\
    ~ (Nearable.temperature p == 16)%Q.
Proof.
  do 4 (split; [reflexivity|]).
  eexists. split; [vm_compute; reflexivity|].
  vm_compute. discriminate.
Qed.

(** C10.  In every subframe A record [isMoving] is true exactly when the
    lower 2 bits of byte 15 are 1.  The values 2 and 3 of those bits are
    not rejected: a buffer of 20 bytes or more with frame type 2, a
    version up to 2 and subframe A decodes to a subframe A record
    whatever byte 15 holds, with [isMoving = false] for 0, 2 and 3. *)
Theorem C10_subframeA_isMoving (data : Buffer.t) :
  (forall a,
     outcome (Telemetry.parseEstimoteTelemetryPacket data)
       = Normal (Some (Telemetry.A a)) ->
     (Telemetry.SubframeA.isMoving a = true <-> at_ data 15 mod 4 = 1)) /\
  ((20 <= List.length data)%nat ->
   Z.land (at_ data 0) 15 = 2 ->
   Z.shiftr (at_ data 0) 4 <= 2 ->
   Z.land (at_ data 9) 3 = 0 ->
   exists a,
     outcome (Telemetry.parseEstimoteTelemetryPacket data)
       = Normal (Some (Telemetry.A a)) /\
     Telemetry.SubframeA.isMoving a = (at_ data 15 mod 4 =? 1) /\
     (at_ data 15 mod 4 = 2 \/ at_ data 15 mod 4 = 3 ->
      Telemetry.SubframeA.isMoving a = false)).
Proof.
  assert (Hmv : forall a,
    outcome (Telemetry.parseEstimoteTelemetryPacket data)
      = Normal (Some (Telemetry.A a)) ->
    Telemetry.SubframeA.isMoving a = (at_ data 15 mod 4 =? 1)).
  { intros a Ha.
    destruct (telemetry_fields _ _ Ha) as (_ & _ & [[_ [sid H]]|[_ [sid H]]]).
    - apply subframeA_fields in H.
      destruct H as (a' & [= <-] & _ & _ & _ & _ & _ & Hm & _).
      rewrite Hm, (byte_land_3 _ (at_range data 15)). reflexivity.
    - apply subframeB_fields in H;
        [|apply Z.shiftr_nonneg; apply at_range].
      destruct H as (b & [=] & _). }
  split.
  - intros a Ha. rewrite (Hmv a Ha). apply Z.eqb_eq.
  - intros Hlen Hft Hv Hs.
    destruct (telemetry_returns data Hlen Hft Hv) as [HA _].
    destruct (HA Hs) as [a Ha]. exists a.
    split; [exact Ha|]. split; [exact (Hmv a Ha)|].
    intros H23. rewrite (Hmv a Ha). apply Z.eqb_neq. lia.
Qed.

Lemma C10_subframeA_isMoving_witness :
  exists a,
    outcome (Telemetry.parseEstimoteTelemetryPacket telemetry_a0_moving3_vector)
      = Normal (Some (Telemetry.A a)) /\
    Telemetry.SubframeA.isMoving a = false.
Proof.
  destruct (proj2 (C10_subframeA_isMoving telemetry_a0_moving3_vector))
    as (a & Ha & _ & Hm); [simpl; lia | reflexivity | vm_compute; discriminate
                          | reflexivity |].
  exists a. split; [exact Ha|]. apply Hm. right. reflexivity.
Defined.

(** * Further properties of the decoders *)

(** ** Hexadecimal identifiers *)

Lemma hexDigitValue_hexDigit (n : Z) :
  0 <= n < 16 -> hexDigitValue (hexDigit n) = Some n.
Proof.
  revert n.
  assert (H : forall n, 0 <= n < 16 ->
    (match hexDigitValue (hexDigit n) with
     | Some v => v =? n
     | None => false
     end) = true).
  { apply (below_forallb
      (fun n => match hexDigitValue (hexDigit n) with
                | Some v => v =? n
                | None => false
                end) 16).
    vm_compute. reflexivity. }
  intros n Hn. specialize (H n Hn).
  destruct (hexDigitValue (hexDigit n)) as [v|]; [|discriminate].
  apply Z.eqb_eq in H. rewrite H. reflexivity.
Qed.

Lemma unhex_hexByte (b : byte) (s : string) (bytes : list Z) :
  unhex s = Some bytes -> unhex (hexByte b ++ s) = Some (u8 b :: bytes).
Proof.
  intros Hs. unfold hexByte. cbn [append unhex].
  assert (Hr : 0 <= u8 b < 256).
  { unfold u8. pose proof (Byte.to_N_bounded b). lia. }
  assert (Hlo : Z.land (u8 b) 15 = u8 b mod 16)
    by (apply byte_land_15; exact Hr).
  assert (Hhi : Z.shiftr (u8 b) 4 = u8 b / 16)
    by (rewrite Z.shiftr_div_pow2 by lia; reflexivity).
  rewrite Hlo, Hhi.
  pose proof (Z.mod_pos_bound (u8 b) 16 ltac:(lia)).
  assert (0 <= u8 b / 16 < 16)
    by (split; [apply Z.div_pos|apply Z.div_lt_upper_bound]; lia).
  rewrite !hexDigitValue_hexDigit by assumption. rewrite Hs.
  do 2 f_equal. pose proof (Z.div_mod (u8 b) 16). lia.
Qed.

Lemma concat_hex_cons (b : byte) (l : list byte) :
  String.concat "" (map hexByte (b :: l))
  = (hexByte b ++ String.concat "" (map hexByte l))%string.
Proof. destruct l; reflexivity. Qed.

Lemma unhex_concat (l : list byte) :
  unhex (String.concat "" (map hexByte l)) = Some (map u8 l).
Proof.
  induction l as [|b l IH]; [reflexivity|].
  rewrite concat_hex_cons. apply unhex_hexByte. exact IH.
Qed.

(** Every character of a hex string is one of [0-9a-f]. *)
Lemma concat_hex_digits (l : list byte) :
  Forall (fun c => hexDigitValue c <> None)
    (list_ascii_of_string (String.concat "" (map hexByte l))).
Proof.
  induction l as [|b l IH]; [constructor|].
  rewrite concat_hex_cons. unfold hexByte at 1.
  cbn [append list_ascii_of_string].
  assert (Hr : 0 <= u8 b < 256).
  { unfold u8. pose proof (Byte.to_N_bounded b). lia. }
  assert (Hlo : 0 <= Z.land (u8 b) 15 < 16).
  { rewrite (byte_land_15 _ Hr). apply Z.mod_pos_bound. lia. }
  assert (Hhi : 0 <= Z.shiftr (u8 b) 4 < 16).
  { rewrite Z.shiftr_div_pow2 by lia.
    split; [apply Z.div_pos|apply Z.div_lt_upper_bound]; lia. }
  constructor; [rewrite (hexDigitValue_hexDigit _ Hhi); discriminate|].
  constructor; [rewrite (hexDigitValue_hexDigit _ Hlo); discriminate|].
  exact IH.
Qed.

Lemma length_concat_hex (l : list byte) :
  String.length (String.concat "" (map hexByte l)) = (2 * List.length l)%nat.
Proof.
  induction l as [|b l IH]; [reflexivity|].
  rewrite concat_hex_cons. unfold hexByte at 1.
  cbn [append String.length List.length]. rewrite IH. lia.
Qed.

Lemma slice_in_range (data : Buffer.t) (start n : nat) :
  (start + n <= List.length data)%nat ->
  slice data start (start + n)
  = map (fun o => nth o data x00) (seq start n).
Proof.
  intros H. unfold slice. apply nth_error_ext. intros i.
  replace (start + n - start)%nat with n by lia.
  rewrite nth_error_firstn, nth_error_skipn.
  destruct (Nat.ltb_spec i n) as [Hi|Hi].
  - rewrite nth_error_map, nth_error_seq.
    destruct (Nat.ltb_spec i n); [|lia]. cbn [option_map].
    apply nth_error_nth'. lia.
  - symmetry. apply nth_error_None. rewrite length_map, length_seq. exact Hi.
Qed.

Lemma identifier_round_trip (data : Buffer.t) (start : nat) :
  (start + 8 <= List.length data)%nat ->
  let id := String.concat "" (map hexByte (slice data start (start + 8))) in
  String.length id = 16%nat /\
  Forall (fun c => hexDigitValue c <> None) (list_ascii_of_string id) /\
  unhex id = Some (map (at_ data) (seq start 8)).
Proof.
  intros H. cbv zeta. split; [|split].
  - rewrite length_concat_hex, slice_in_range by exact H.
    rewrite length_map, length_seq. reflexivity.
  - apply concat_hex_digits.
  - rewrite unhex_concat, slice_in_range by exact H.
    rewrite map_map. reflexivity.
Qed.

(** ** Nearable records, field by field *)

(** The whole record a Nearable buffer decodes to. *)
Lemma nearable_record (data : Buffer.t) (p : Nearable.Packet) :
  outcome (Nearable.parseEstimoteNearablePacket data) = Normal (Some p) ->
  (21 <= List.length data)%nat /\
  Nearable.nearableId p
    = String.concat "" (map hexByte (slice data 3 11)) /\
  Nearable.acceleration p
    = mkVec3 (inject_Z (int8 (at_ data 16)) * 15.625)%Q
             (inject_Z (int8 (at_ data 17)) * 15.625)%Q
             (inject_Z (int8 (at_ data 18)) * 15.625)%Q /\
  Nearable.motionStateDuration p
    = mkMotionStateDuration
        (Nearable.parseMotionStateDuration (at_ data 19))
        (Nearable.parseMotionStateDuration (at_ data 20)).
Proof.
  intros H. unfold Nearable.parseEstimoteNearablePacket in H.
  eval_inv H.
  cbn [Nearable.nearableId Nearable.acceleration Nearable.motionStateDuration].
  repeat split; solve [lia | reflexivity].
Qed.

(** The Nearable temperature is the signed 12-bit number made of byte 13
    and the low 4 bits of byte 14, in sixteenths of a degree: the upper 4
    bits of byte 14 play no part, and the value lies in -128 .. 127.9375. *)
Theorem nearable_temperature_range (data : Buffer.t) (p : Nearable.Packet) :
  outcome (Nearable.parseEstimoteNearablePacket data) = Normal (Some p) ->
  let raw := at_ data 13 + (at_ data 14 mod 16) * 256 in
  let s := if raw <=? 2047 then raw else raw - 4096 in
  (Nearable.temperature p == inject_Z s / 16)%Q /\
  (-128 <= Nearable.temperature p)%Q /\
  (Nearable.temperature p <= 127.9375)%Q.
Proof.
  intros H. destruct (nearable_fields _ _ H) as (_ & _ & _ & _ & Ht).
  pose proof (at_range data 13) as R13.
  pose proof (at_range data 14) as R14.
  assert (Hraw : Z.land (at_ data 13 + at_ data 14 * 256) 0x0fff
                 = at_ data 13 + (at_ data 14 mod 16) * 256).
  { change 0x0fff with (Z.ones 12). rewrite Z.land_ones by lia.
    pose proof (Z.div_mod (at_ data 14) 16 ltac:(lia)).
    pose proof (Z.mod_pos_bound (at_ data 14) 16 ltac:(lia)).
    symmetry. apply Z.mod_unique_pos with (q := at_ data 14 / 16).
    - change (2 ^ 12) with 4096. lia.
    - change (2 ^ 12) with 4096. lia. }
  rewrite Hraw in Ht. cbv zeta in Ht. cbv zeta. rewrite Ht.
  pose proof (Z.mod_pos_bound (at_ data 14) 16 ltac:(lia)).
  set (raw := at_ data 13 + at_ data 14 mod 16 * 256) in *.
  assert (0 <= raw <= 4095) by (unfold raw; lia).
  destruct (Z.ltb_spec 2047 raw), (Z.leb_spec raw 2047); try lia;
    (split; [reflexivity|]); unfold Qle; cbn; lia.
Qed.

Lemma nearable_temperature_range_witness :
  exists p,
    outcome (Nearable.parseEstimoteNearablePacket nearable_vector)
      = Normal (Some p) /\
    (-128 <= Nearable.temperature p)%Q.
Proof.
  eexists. split; [vm_compute; reflexivity|].
  refine (proj1 (proj2 (nearable_temperature_range nearable_vector _ _))).
  vm_compute. reflexivity.
Defined.

Lemma int8_range (v : Z) : 0 <= v < 256 -> -128 <= int8 v <= 127.
Proof. intros H. unfold int8. destruct (Z.ltb_spec 127 v); lia. Qed.

(** Each Nearable acceleration axis is the two's complement reading of its
    byte (16, 17, 18) times 15.625, so it lies in -2000 .. 1984.375
    milli-g. *)
Theorem nearable_acceleration_range (data : Buffer.t) (p : Nearable.Packet) :
  outcome (Nearable.parseEstimoteNearablePacket data) = Normal (Some p) ->
  let axis (o : nat) := (inject_Z (int8 (at_ data o)) * 15.625)%Q in
  Nearable.acceleration p = mkVec3 (axis 16%nat) (axis 17%nat) (axis 18%nat) /\
  Forall (fun a => -2000 <= a /\ a <= 1984.375)%Q
    [x (Nearable.acceleration p); y (Nearable.acceleration p);
     z (Nearable.acceleration p)].
Proof.
  intros H. destruct (nearable_record _ _ H) as (_ & _ & Ha & _).
  cbv zeta. split; [exact Ha|]. rewrite Ha. cbn [x y z].
  pose proof (int8_range _ (at_range data 16)).
  pose proof (int8_range _ (at_range data 17)).
  pose proof (int8_range _ (at_range data 18)).
  repeat constructor; unfold Qle; cbn; lia.
Qed.

Lemma nearable_acceleration_range_witness :
  exists p,
    outcome (Nearable.parseEstimoteNearablePacket nearable_vector)
      = Normal (Some p) /\
    Forall (fun a => -2000 <= a /\ a <= 1984.375)%Q
      [x (Nearable.acceleration p); y (Nearable.acceleration p);
       z (Nearable.acceleration p)].
Proof.
  eexists. split; [vm_compute; reflexivity|].
  refine (proj2 (nearable_acceleration_range nearable_vector _ _)).
  vm_compute. reflexivity.
Defined.

(** The Nearable identifier is 16 characters, each of them one of the
    hexadecimal digits [0-9a-f], and reading them back two by two gives
    bytes 3 to 10 of the buffer in order. *)
Theorem nearable_identifier_round_trip (data : Buffer.t) (p : Nearable.Packet) :
  outcome (Nearable.parseEstimoteNearablePacket data) = Normal (Some p) ->
  String.length (Nearable.nearableId p) = 16%nat /\
  Forall (fun c => hexDigitValue c <> None)
    (list_ascii_of_string (Nearable.nearableId p)) /\
  unhex (Nearable.nearableId p) = Some (map (at_ data) (seq 3 8)).
Proof.
  intros H. destruct (nearable_record _ _ H) as (Hlen & Hid & _).
  rewrite Hid. apply (identifier_round_trip data 3). lia.
Qed.

Lemma nearable_identifier_round_trip_witness :
  exists p,
    outcome (Nearable.parseEstimoteNearablePacket nearable_vector)
      = Normal (Some p) /\
    unhex (Nearable.nearableId p)
      = Some [0x11; 0x22; 0x33; 0x44; 0x55; 0x66; 0x77; 0x88].
Proof.
  eexists. split; [vm_compute; reflexivity|].
  apply (nearable_identifier_round_trip nearable_vector).
  vm_compute. reflexivity.
Defined.

(** What the Nearable decoder does is decided by the length of the buffer
    and its two discriminators: a record needs 21 bytes; [undefined] comes
    from a wrong company identifier (2 bytes suffice) or a wrong frame type
    (3 bytes suffice); every other buffer throws [RangeError]. *)
Theorem nearable_outcome_cases (data : Buffer.t) :
  let len := List.length data in
  let id_ok := at_ data 0 + at_ data 1 * 256 = 0x015d in
  let ft_ok := at_ data 2 = 0x01 in
  let r := outcome (Nearable.parseEstimoteNearablePacket data) in
  ((exists p, r = Normal (Some p)) <->
   (21 <= len)%nat /\ id_ok /\ ft_ok) /\
  (r = Normal None <->
   ((2 <= len)%nat /\ ~ id_ok) \/ ((3 <= len)%nat /\ id_ok /\ ~ ft_ok)) /\
  (r = Throw RangeError <->
   (len < 2)%nat \/ (id_ok /\ (len < 3)%nat) \/
   (id_ok /\ ft_ok /\ (len < 21)%nat)).
Proof.
  cbv zeta.
  assert (Hsome : forall p,
    outcome (Nearable.parseEstimoteNearablePacket data) = Normal (Some p) ->
    (21 <= List.length data)%nat /\
    at_ data 0 + at_ data 1 * 256 = 0x015d /\ at_ data 2 = 0x01).
  { intros p H. destruct (nearable_fields _ _ H) as (? & ? & ? & _). auto. }
  assert (Hnone :
    outcome (Nearable.parseEstimoteNearablePacket data) = Normal None ->
    ((2 <= List.length data)%nat /\
     at_ data 0 + at_ data 1 * 256 <> 0x015d) \/
    ((3 <= List.length data)%nat /\
     at_ data 0 + at_ data 1 * 256 = 0x015d /\ at_ data 2 <> 0x01)).
  { intros H. unfold Nearable.parseEstimoteNearablePacket in H.
    apply bind_Normal in H. destruct H as (c & Hc & H). inv_read Hc.
    cbv beta in H.
    destruct (Z.eqb_spec (at_ data 0 + at_ data 1 * 256) 0x015d) as [Hid|Hid];
      cbn [negb] in H; [|left; split; [lia|exact Hid]].
    apply bind_Normal in H. destruct H as (f & Hf & H). inv_read Hf.
    cbv beta in H.
    destruct (Z.eqb_spec (at_ data 2) 0x01) as [Hft|Hft];
      cbn [negb] in H; [|right; split; [lia|split; assumption]].
    eval_inv H. }
  assert (Hfwd_some :
    (21 <= List.length data)%nat ->
    at_ data 0 + at_ data 1 * 256 = 0x015d -> at_ data 2 = 0x01 ->
    exists p,
      outcome (Nearable.parseEstimoteNearablePacket data) = Normal (Some p))
    by apply nearable_returns.
  assert (Hfwd_none1 :
    (2 <= List.length data)%nat ->
    at_ data 0 + at_ data 1 * 256 <> 0x015d ->
    outcome (Nearable.parseEstimoteNearablePacket data) = Normal None).
  { intros Hl Hid. unfold Nearable.parseEstimoteNearablePacket.
    eval_fwd. reflexivity. }
  assert (Hfwd_none2 :
    (3 <= List.length data)%nat ->
    at_ data 0 + at_ data 1 * 256 = 0x015d -> at_ data 2 <> 0x01 ->
    outcome (Nearable.parseEstimoteNearablePacket data) = Normal None).
  { intros Hl Hid Hft. unfold Nearable.parseEstimoteNearablePacket.
    eval_fwd. reflexivity. }
  destruct (outcome (Nearable.parseEstimoteNearablePacket data))
    as [[p|]|[]] eqn:Hr.
  - destruct (Hsome p eq_refl) as (Hl & Hid & Hft).
    split; [split; [auto|intros _; eauto]|].
    split; (split; [discriminate|lia]).
  - destruct (Hnone eq_refl) as [[Hl Hid]|(Hl & Hid & Hft)];
      (split; [split; [intros [p [=]]|intros (? & ? & ?); lia]|]);
      (split; [split; [auto|reflexivity]|split; [discriminate|lia]]).
  - split; [split; [intros [p [=]]|]|split; [split; [discriminate|]|]].
    + intros (Hl & Hid & Hft).
      destruct (Hfwd_some Hl Hid Hft) as [p [=]].
    + intros [[Hl Hid]|(Hl & Hid & Hft)];
        [specialize (Hfwd_none1 Hl Hid)|specialize (Hfwd_none2 Hl Hid Hft)];
        discriminate.
    + split; [intros _|reflexivity].
      destruct (Nat.lt_ge_cases (List.length data) 2) as [|Hl2]; [auto|].
      destruct (Z.eq_dec (at_ data 0 + at_ data 1 * 256) 0x015d) as [Hid|Hid];
        [|specialize (Hfwd_none1 Hl2 Hid); discriminate].
      destruct (Nat.lt_ge_cases (List.length data) 3) as [|Hl3]; [auto|].
      destruct (Z.eq_dec (at_ data 2) 0x01) as [Hft|Hft];
        [|specialize (Hfwd_none2 Hl3 Hid Hft); discriminate].
      destruct (Nat.lt_ge_cases (List.length data) 21) as [|Hl21]; [auto|].
      destruct (Hfwd_some Hl21 Hid Hft) as [p [=]].
Qed.

Lemma nearable_outcome_cases_witness :
  outcome (Nearable.parseEstimoteNearablePacket nearable_short_vector)
    = Throw RangeError /\
  outcome (Nearable.parseEstimoteNearablePacket foreign_vector) = Normal None.
Proof.
  pose proof (nearable_outcome_cases nearable_short_vector) as (_ & _ & Ht).
  pose proof (nearable_outcome_cases foreign_vector) as (_ & Hn & _).
  split.
  - apply Ht. right. right.
    split; [reflexivity|]. split; [reflexivity|simpl; lia].
  - apply Hn. left. split; [simpl; lia|vm_compute; discriminate].
Defined.

(** ** Motion state durations *)

Lemma byte_unit_code (b : Z) : 0 <= b < 256 -> 0 <= b / 64 < 4.
Proof.
  intros H. split; [apply Z.div_pos|apply Z.div_lt_upper_bound]; lia.
Qed.

(** The Nearable and the Telemetry duration decoders agree on every byte
    but one: 0xE0, unit code 3 with magnitude 32, is 0 weeks for the first
    and 32 days for the second. *)
Theorem durations_differ_only_at_0xE0 (byte : Z) :
  0 <= byte < 256 ->
  (Nearable.parseMotionStateDuration byte
   = Telemetry.parseMotionStateDuration byte <-> byte <> 0xE0).
Proof.
  intros Hb. split.
  - intros H ->. discriminate H.
  - intros Hne.
    unfold Nearable.parseMotionStateDuration,
      Telemetry.parseMotionStateDuration.
    rewrite (byte_land_192 byte Hb), (byte_land_63 byte Hb).
    pose proof (byte_unit_code byte Hb).
    pose proof (Z.div_mod byte 64 ltac:(lia)).
    pose proof (Z.mod_pos_bound byte 64 ltac:(lia)).
    destruct (Z.eqb_spec (byte / 64) 0); [reflexivity|].
    destruct (Z.eqb_spec (byte / 64) 1); [reflexivity|].
    destruct (Z.eqb_spec (byte / 64) 2); [reflexivity|].
    destruct (Z.eqb_spec (byte / 64) 3); [|lia]. cbn [andb].
    destruct (Z.ltb_spec (byte mod 64) 32), (Z.leb_spec (byte mod 64) 32);
      try reflexivity; lia.
Qed.

Lemma durations_differ_only_at_0xE0_witness :
  Nearable.parseMotionStateDuration 0xE1
  = Telemetry.parseMotionStateDuration 0xE1.
Proof.
  apply (durations_differ_only_at_0xE0 0xE1); lia.
Defined.

(** The number of a decoded duration is never negative and never above 63;
    days go up to 31 (Nearable) or 32 (Telemetry), weeks up to 31, and the
    Telemetry decoder never reports 0 weeks. *)
Theorem duration_number_bounds (byte : Z) :
  0 <= byte < 256 ->
  let n := Nearable.parseMotionStateDuration byte in
  let t := Telemetry.parseMotionStateDuration byte in
  0 <= number n <= 63 /\ 0 <= number t <= 63 /\
  (unit n = days \/ unit n = weeks -> number n <= 31) /\
  (unit t = days -> number t <= 32) /\
  (unit t = weeks -> 1 <= number t <= 31).
Proof.
  intros Hb. cbv zeta.
  unfold Nearable.parseMotionStateDuration,
    Telemetry.parseMotionStateDuration.
  rewrite (byte_land_192 byte Hb), (byte_land_63 byte Hb).
  pose proof (byte_unit_code byte Hb).
  pose proof (Z.mod_pos_bound byte 64 ltac:(lia)).
  destruct (Z.eqb_spec (byte / 64) 0);
    [cbn [number unit]; repeat split; try lia;
     intros; try discriminate; intuition discriminate|].
  destruct (Z.eqb_spec (byte / 64) 1);
    [cbn [number unit]; repeat split; try lia;
     intros; try discriminate; intuition discriminate|].
  destruct (Z.eqb_spec (byte / 64) 2);
    [cbn [number unit]; repeat split; try lia;
     intros; try discriminate; intuition discriminate|].
  destruct (Z.eqb_spec (byte / 64) 3); [|lia]. cbn [andb].
  destruct (Z.ltb_spec (byte mod 64) 32), (Z.leb_spec (byte mod 64) 32);
    cbn [number unit]; repeat split; try lia;
    intros; try discriminate; intuition (try discriminate; try lia).
Qed.

Lemma duration_number_bounds_witness :
  0 <= number (Nearable.parseMotionStateDuration 0xE0) <= 63 /\
  0 <= number (Telemetry.parseMotionStateDuration 0xE0) <= 63.
Proof.
  pose proof (duration_number_bounds 0xE0) as (Hn & Ht & _); [lia|].
  split; [exact Hn|exact Ht].
Defined.

(** Neither duration decoder loses information: two bytes with the same
    decoded duration are the same byte. *)
Theorem duration_decoders_injective (b1 b2 : Z) :
  0 <= b1 < 256 -> 0 <= b2 < 256 ->
  (Nearable.parseMotionStateDuration b1
   = Nearable.parseMotionStateDuration b2 -> b1 = b2) /\
  (Telemetry.parseMotionStateDuration b1
   = Telemetry.parseMotionStateDuration b2 -> b1 = b2).
Proof.
  intros H1 H2.
  pose (code := fun d : Duration =>
    match unit d with
    | seconds => number d
    | minutes => 64 + number d
    | hours => 128 + number d
    | days => 192 + number d
    | weeks => 192 + 32 + number d
    end).
  assert (Hn : forall b, 0 <= b < 256 ->
    (code (Nearable.parseMotionStateDuration b) =? b) = true).
  { apply (below_forallb
      (fun b => code (Nearable.parseMotionStateDuration b) =? b) 256).
    vm_compute. reflexivity. }
  assert (Ht : forall b, 0 <= b < 256 ->
    (code (Telemetry.parseMotionStateDuration b) =? b) = true).
  { apply (below_forallb
      (fun b => code (Telemetry.parseMotionStateDuration b) =? b) 256).
    vm_compute. reflexivity. }
  split; intros E.
  - rewrite <- (proj1 (Z.eqb_eq _ _) (Hn b1 H1)).
    rewrite <- (proj1 (Z.eqb_eq _ _) (Hn b2 H2)). rewrite E. reflexivity.
  - rewrite <- (proj1 (Z.eqb_eq _ _) (Ht b1 H1)).
    rewrite <- (proj1 (Z.eqb_eq _ _) (Ht b2 H2)). rewrite E. reflexivity.
Qed.

Lemma duration_decoders_injective_witness :
  (Nearable.parseMotionStateDuration 0x45
   = Nearable.parseMotionStateDuration 0x45 -> 0x45 = 0x45) /\
  (Telemetry.parseMotionStateDuration 0x45
   = Telemetry.parseMotionStateDuration 0x45 -> 0x45 = 0x45).
Proof.
  apply (duration_decoders_injective 0x45 0x45); lia.
Defined.

(** ** Telemetry records, field by field *)

Lemma telemetry_dispatch_id (data : Buffer.t) (p : Telemetry.Packet) :
  outcome (Telemetry.parseEstimoteTelemetryPacket data) = Normal (Some p) ->
  let shortIdentifier := String.concat "" (map hexByte (slice data 1 9)) in
  let v := Z.shiftr (at_ data 0) 4 in
  (10 <= List.length data)%nat /\ 0 <= v <= 2 /\
  ((Z.land (at_ data 9) 3 = 0 /\
    outcome (Telemetry.parseSubframeA data shortIdentifier v)
      = Normal (Some p)) \/
   (Z.land (at_ data 9) 3 = 1 /\
    outcome (Telemetry.parseSubframeB data shortIdentifier v)
      = Normal (Some p))).
Proof.
  intros H. unfold Telemetry.parseEstimoteTelemetryPacket in H.
  unfold Telemetry.ESTIMOTE_FRAME_TYPE_TELEMETRY,
    Telemetry.ESTIMOTE_TELEMETRY_SUBFRAME_A,
    Telemetry.ESTIMOTE_TELEMETRY_SUBFRAME_B in H.
  apply bind_Normal in H. destruct H as (f & Hf & H). inv_read Hf.
  cbv beta zeta in H.
  destruct (negb (Z.land (at_ data 0) 15 =? 2)) eqn:Hft; [eval_inv H|].
  apply bind_Normal in H. destruct H as (v & Hv & H). inv_read Hv.
  cbv beta zeta in H.
  rewrite (byte_land_240 _ (at_range data 0)) in H.
  destruct (2 <? Z.shiftr (at_ data 0) 4) eqn:Hver; [eval_inv H|].
  apply Z.ltb_ge in Hver.
  rewrite outcome_bind, toStringHex_outcome in H.
  apply bind_Normal in H. destruct H as (s & Hs & H). inv_read Hs.
  cbv beta zeta in H. cbv zeta.
  split; [lia|]. split.
  { split; [apply Z.shiftr_nonneg; apply at_range|exact Hver]. }
  destruct (Z.land (at_ data 9) 3 =? 0) eqn:Ha.
  - left. apply Z.eqb_eq in Ha. split; [exact Ha|exact H].
  - destruct (Z.land (at_ data 9) 3 =? 1) eqn:Hb.
    + right. apply Z.eqb_eq in Hb. split; [exact Hb|exact H].
    + eval_inv H.
Qed.

Lemma subframeA_record (data : Buffer.t) (shortIdentifier : string) (v : Z)
    (a : Telemetry.SubframeA.t) :
  outcome (Telemetry.parseSubframeA data shortIdentifier v)
    = Normal (Some (Telemetry.A a)) ->
  Telemetry.SubframeA.shortIdentifier a = shortIdentifier /\
  Telemetry.SubframeA.frameType a = "Estimote Telemetry"%string /\
  Telemetry.SubframeA.acceleration a
    = Doubles.mkVec3 (PrimFloat.div (double (int8 (at_ data 10) * 2)) 127)
                     (PrimFloat.div (double (int8 (at_ data 11) * 2)) 127)
                     (PrimFloat.div (double (int8 (at_ data 12) * 2)) 127) /\
  Telemetry.SubframeA.motionStateDuration a
    = mkMotionStateDuration
        (Telemetry.parseMotionStateDuration (at_ data 14))
        (Telemetry.parseMotionStateDuration (at_ data 13)) /\
  Telemetry.SubframeA.gpio a
    = Telemetry.mkGpio
        (Telemetry.pinState (Z.shiftr (Z.land (at_ data 15) 16) 4))
        (Telemetry.pinState (Z.shiftr (Z.land (at_ data 15) 32) 5))
        (Telemetry.pinState (Z.shiftr (Z.land (at_ data 15) 64) 6))
        (Telemetry.pinState (Z.shiftr (Z.land (at_ data 15) 128) 7)).
Proof.
  intros H. unfold Telemetry.parseSubframeA in H.
  eval_inv H;
    cbn [Telemetry.SubframeA.shortIdentifier Telemetry.SubframeA.frameType
         Telemetry.SubframeA.acceleration
         Telemetry.SubframeA.motionStateDuration Telemetry.SubframeA.gpio];
    repeat split; reflexivity.
Qed.

Lemma subframeB_record (data : Buffer.t) (shortIdentifier : string) (v : Z)
    (b : Telemetry.SubframeB.t) :
  outcome (Telemetry.parseSubframeB data shortIdentifier v)
    = Normal (Some (Telemetry.B b)) ->
  Telemetry.SubframeB.shortIdentifier b = shortIdentifier /\
  Telemetry.SubframeB.frameType b = "Estimote Telemetry"%string /\
  Telemetry.SubframeB.magneticField b
    = mkVec3 (inject_Z (int8 (at_ data 10)) / 128)%Q
             (inject_Z (int8 (at_ data 11)) / 128)%Q
             (inject_Z (int8 (at_ data 12)) / 128)%Q /\
  Telemetry.SubframeB.ambientLightLevel b
    = PrimFloat.mul
        (PrimFloat.mul (double (2 ^ Z.shiftr (Z.land (at_ data 13) 240) 4))
                       (double (Z.land (at_ data 13) 15)))
        0.72 /\
  Telemetry.SubframeB.uptime b
    = Telemetry.mkUptime
        (Z.lor (Z.shiftl (Z.land (at_ data 15) 15) 8) (at_ data 14))
        (let c := Z.shiftr (Z.land (at_ data 15) 48) 4 in
         if c =? 0 then Some seconds
         else if c =? 1 then Some minutes
         else if c =? 2 then Some hours
         else if c =? 3 then Some days
         else None).
Proof.
  intros H. unfold Telemetry.parseSubframeB in H.
  eval_inv H;
    cbn [Telemetry.SubframeB.shortIdentifier Telemetry.SubframeB.frameType
         Telemetry.SubframeB.magneticField
         Telemetry.SubframeB.ambientLightLevel Telemetry.SubframeB.uptime];
    repeat split; reflexivity.
Qed.

Lemma telemetry_A_of_packet (data : Buffer.t) (a : Telemetry.SubframeA.t) :
  outcome (Telemetry.parseEstimoteTelemetryPacket data)
    = Normal (Some (Telemetry.A a)) ->
  let v := Z.shiftr (at_ data 0) 4 in
  0 <= v <= 2 /\
  outcome (Telemetry.parseSubframeA data
             (String.concat "" (map hexByte (slice data 1 9))) v)
    = Normal (Some (Telemetry.A a)).
Proof.
  intros H.
  destruct (telemetry_dispatch_id _ _ H) as (_ & Hv & [[_ Hs]|[_ Hs]]).
  - split; [exact Hv|exact Hs].
  - apply subframeB_fields in Hs; [|lia]. destruct Hs as (b & [=] & _).
Qed.

Lemma telemetry_B_of_packet (data : Buffer.t) (b : Telemetry.SubframeB.t) :
  outcome (Telemetry.parseEstimoteTelemetryPacket data)
    = Normal (Some (Telemetry.B b)) ->
  let v := Z.shiftr (at_ data 0) 4 in
  0 <= v <= 2 /\
  outcome (Telemetry.parseSubframeB data
             (String.concat "" (map hexByte (slice data 1 9))) v)
    = Normal (Some (Telemetry.B b)).
Proof.
  intros H.
  destruct (telemetry_dispatch_id _ _ H) as (_ & Hv & [[_ Hs]|[_ Hs]]).
  - apply subframeA_fields in Hs. destruct Hs as (a & [=] & _).
  - split; [exact Hv|exact Hs].
Qed.

(** In a subframe A record, pins 0 to 3 are bits 4 to 7 of byte 15: a set
    bit is [high], a clear bit is [low]. *)
Theorem subframeA_gpio_bits (data : Buffer.t) (a : Telemetry.SubframeA.t) :
  outcome (Telemetry.parseEstimoteTelemetryPacket data)
    = Normal (Some (Telemetry.A a)) ->
  let pin (k : Z) :=
    if Z.testbit (at_ data 15) k then Telemetry.high else Telemetry.low in
  Telemetry.SubframeA.gpio a = Telemetry.mkGpio (pin 4) (pin 5) (pin 6) (pin 7).
Proof.
  intros H. destruct (telemetry_A_of_packet _ _ H) as (_ & Hs).
  destruct (subframeA_record _ _ _ _ Hs) as (_ & _ & _ & _ & Hg).
  pose proof (at_range data 15) as R.
  rewrite Hg. unfold Telemetry.pinState.
  rewrite (byte_pin4 _ R), (byte_pin5 _ R), (byte_pin6 _ R), (byte_pin7 _ R).
  cbv zeta.
  destruct (Z.testbit (at_ data 15) 4), (Z.testbit (at_ data 15) 5),
    (Z.testbit (at_ data 15) 6), (Z.testbit (at_ data 15) 7); reflexivity.
Qed.

Lemma subframeA_gpio_bits_witness :
  exists a,
    outcome (Telemetry.parseEstimoteTelemetryPacket telemetry_a2_vector)
      = Normal (Some (Telemetry.A a)) /\
    Telemetry.SubframeA.gpio a
      = Telemetry.mkGpio Telemetry.high Telemetry.low Telemetry.low
                         Telemetry.low.
Proof.
  eexists. split; [vm_compute; reflexivity|].
  apply (subframeA_gpio_bits telemetry_a2_vector).
  vm_compute. reflexivity.
Defined.

(** The double a subframe A acceleration byte decodes to. *)
Lemma acceleration_double_bounds : forall b, 0 <= b < 256 ->
  (let g := PrimFloat.div (double (int8 b * 2)) 127 in
   PrimFloat.leb (PrimFloat.div (-256) 127) g
   && PrimFloat.leb g 2
   && Bool.eqb (PrimFloat.ltb g (-2)) (int8 b =? -128)
   && Bool.eqb (PrimFloat.eqb g 0) (b =? 0)) = true.
Proof.
  apply (below_forallb
    (fun b => let g := PrimFloat.div (double (int8 b * 2)) 127 in
       PrimFloat.leb (PrimFloat.div (-256) 127) g
       && PrimFloat.leb g 2
       && Bool.eqb (PrimFloat.ltb g (-2)) (int8 b =? -128)
       && Bool.eqb (PrimFloat.eqb g 0) (b =? 0)) 256).
  vm_compute. reflexivity.
Qed.

(** Each subframe A acceleration axis is the double the code computes from
    its byte (10, 11, 12): the two's complement reading times 2, divided
    by 127 with IEEE rounding.  It lies between the double -256 / 127 and
    2, is below -2 exactly for the raw value -128, and is 0 exactly for
    the byte 0. *)
Theorem subframeA_acceleration_range (data : Buffer.t)
    (a : Telemetry.SubframeA.t) :
  outcome (Telemetry.parseEstimoteTelemetryPacket data)
    = Normal (Some (Telemetry.A a)) ->
  let axis (o : nat) := PrimFloat.div (double (int8 (at_ data o) * 2)) 127 in
  Telemetry.SubframeA.acceleration a
    = Doubles.mkVec3 (axis 10%nat) (axis 11%nat) (axis 12%nat) /\
  Forall (fun o =>
            PrimFloat.leb (PrimFloat.div (-256) 127) (axis o) = true /\
            PrimFloat.leb (axis o) 2 = true /\
            (PrimFloat.ltb (axis o) (-2) = true <-> at_ data o = 128) /\
            (PrimFloat.eqb (axis o) 0 = true <-> at_ data o = 0))
    [10; 11; 12]%nat.
Proof.
  intros H. destruct (telemetry_A_of_packet _ _ H) as (_ & Hs).
  destruct (subframeA_record _ _ _ _ Hs) as (_ & _ & Ha & _).
  cbv zeta. split; [exact Ha|].
  assert (Hb : forall o,
    PrimFloat.leb (PrimFloat.div (-256) 127)
      (PrimFloat.div (double (int8 (at_ data o) * 2)) 127) = true /\
    PrimFloat.leb (PrimFloat.div (double (int8 (at_ data o) * 2)) 127) 2
      = true /\
    (PrimFloat.ltb (PrimFloat.div (double (int8 (at_ data o) * 2)) 127) (-2)
       = true <-> at_ data o = 128) /\
    (PrimFloat.eqb (PrimFloat.div (double (int8 (at_ data o) * 2)) 127) 0
       = true <-> at_ data o = 0)).
  { intros o. pose proof (at_range data o) as R.
    pose proof (acceleration_double_bounds _ R) as Hc. cbv zeta in Hc.
    apply andb_prop in Hc. destruct Hc as [Hc H0].
    apply andb_prop in Hc. destruct Hc as [Hc H2].
    apply andb_prop in Hc. destruct Hc as [Hlo Hhi].
    apply Bool.eqb_prop in H0, H2.
    split; [exact Hlo|]. split; [exact Hhi|]. split.
    - rewrite H2. rewrite Z.eqb_eq. unfold int8.
      destruct (Z.ltb_spec 127 (at_ data o)); lia.
    - rewrite H0. apply Z.eqb_eq. }
  repeat constructor; apply Hb.
Qed.

Lemma subframeA_acceleration_range_witness :
  exists a,
    outcome (Telemetry.parseEstimoteTelemetryPacket telemetry_a2_vector)
      = Normal (Some (Telemetry.A a)) /\
    Telemetry.SubframeA.acceleration a
      = Doubles.mkVec3 0.15748031496062992 (-0.31496062992125984)
                       0.47244094488188976.
Proof.
  eexists. split; [vm_compute; reflexivity|].
  refine (proj1 (subframeA_acceleration_range telemetry_a2_vector _ _)).
  vm_compute. reflexivity.
Defined.

(** In a subframe A record of protocol version 2 the pressure is the
    unsigned little-endian 32-bit number of bytes 16 to 19 divided by 256:
    it is never negative and stays below 2^24 Pa. *)
Theorem subframeA_pressure_range (data : Buffer.t)
    (a : Telemetry.SubframeA.t) :
  outcome (Telemetry.parseEstimoteTelemetryPacket data)
    = Normal (Some (Telemetry.A a)) ->
  Telemetry.SubframeA.protocolVersion a = 2 ->
  let raw := at_ data 16 + at_ data 17 * 256 + at_ data 18 * 65536
             + at_ data 19 * 16777216 in
  exists q,
    Telemetry.SubframeA.pressure a = Some q /\
    (q == inject_Z raw / 256)%Q /\ (0 <= q)%Q /\ (q < 16777216)%Q.
Proof.
  intros H Hv2. destruct (telemetry_A_of_packet _ _ H) as (_ & Hs).
  apply subframeA_fields in Hs.
  destruct Hs as (a' & [= <-] & _ & _ & _ & _ & Hpv & _ & _ & Hp).
  rewrite Hv2 in Hpv. rewrite <- Hpv in Hp. cbn [Z.eqb Pos.eqb] in Hp.
  pose proof (at_range data 16). pose proof (at_range data 17).
  pose proof (at_range data 18). pose proof (at_range data 19).
  cbv zeta. eexists. split; [exact Hp|].
  split; [reflexivity|]. split; [unfold Qle|unfold Qlt]; cbn; lia.
Qed.

Lemma subframeA_pressure_range_witness :
  exists a q,
    outcome (Telemetry.parseEstimoteTelemetryPacket telemetry_a2_vector)
      = Normal (Some (Telemetry.A a)) /\
    Telemetry.SubframeA.pressure a = Some q /\ (q < 16777216)%Q.
Proof.
  eexists.
  destruct (subframeA_pressure_range telemetry_a2_vector _ eq_refl eq_refl)
    as (q & Hq & _ & _ & Hlt).
  exists q. split; [reflexivity|]. split; [exact Hq|exact Hlt].
Defined.

(** The motion state durations sit in opposite orders in the two formats:
    a Nearable record takes [current] from byte 19 and [previous] from byte
    20, a Telemetry subframe A record takes [previous] from byte 13 and
    [current] from byte 14, each with its own decoder. *)
Theorem motion_state_duration_sources (data : Buffer.t) :
  (forall p,
     outcome (Nearable.parseEstimoteNearablePacket data) = Normal (Some p) ->
     current (Nearable.motionStateDuration p)
       = Nearable.parseMotionStateDuration (at_ data 19) /\
     previous (Nearable.motionStateDuration p)
       = Nearable.parseMotionStateDuration (at_ data 20)) /\
  (forall a,
     outcome (Telemetry.parseEstimoteTelemetryPacket data)
       = Normal (Some (Telemetry.A a)) ->
     previous (Telemetry.SubframeA.motionStateDuration a)
       = Telemetry.parseMotionStateDuration (at_ data 13) /\
     current (Telemetry.SubframeA.motionStateDuration a)
       = Telemetry.parseMotionStateDuration (at_ data 14)).
Proof.
  split.
  - intros p H. destruct (nearable_record _ _ H) as (_ & _ & _ & Hm).
    rewrite Hm. split; reflexivity.
  - intros a H. destruct (telemetry_A_of_packet _ _ H) as (_ & Hs).
    destruct (subframeA_record _ _ _ _ Hs) as (_ & _ & _ & Hm & _).
    rewrite Hm. split; reflexivity.
Qed.

Lemma motion_state_duration_sources_witness :
  exists p a,
    outcome (Nearable.parseEstimoteNearablePacket nearable_vector)
      = Normal (Some p) /\
    outcome (Telemetry.parseEstimoteTelemetryPacket telemetry_a2_vector)
      = Normal (Some (Telemetry.A a)) /\
    current (Nearable.motionStateDuration p) = mkDuration 5 seconds /\
    current (Telemetry.SubframeA.motionStateDuration a)
      = mkDuration 5 minutes.
Proof.
  eexists _, _. split; [vm_compute; reflexivity|].
  split; [vm_compute; reflexivity|]. split.
  - apply (proj1 (motion_state_duration_sources nearable_vector)).
    vm_compute. reflexivity.
  - apply (proj2 (motion_state_duration_sources telemetry_a2_vector)).
    vm_compute. reflexivity.
Defined.

(** Each subframe B magnetic field axis is the two's complement reading of
    its byte (10, 11, 12) divided by 128: it reaches -1 but stays below 1
    (at most 127/128). *)
Theorem subframeB_magnetic_field_range (data : Buffer.t)
    (b : Telemetry.SubframeB.t) :
  outcome (Telemetry.parseEstimoteTelemetryPacket data)
    = Normal (Some (Telemetry.B b)) ->
  let axis (o : nat) := (inject_Z (int8 (at_ data o)) / 128)%Q in
  Telemetry.SubframeB.magneticField b
    = mkVec3 (axis 10%nat) (axis 11%nat) (axis 12%nat) /\
  Forall (fun m => -1 <= m /\ m <= 127 # 128)%Q
    [x (Telemetry.SubframeB.magneticField b);
     y (Telemetry.SubframeB.magneticField b);
     z (Telemetry.SubframeB.magneticField b)].
Proof.
  intros H. destruct (telemetry_B_of_packet _ _ H) as (_ & Hs).
  destruct (subframeB_record _ _ _ _ Hs) as (_ & _ & Hm & _).
  cbv zeta. split; [exact Hm|]. rewrite Hm. cbn [x y z].
  pose proof (int8_range _ (at_range data 10)).
  pose proof (int8_range _ (at_range data 11)).
  pose proof (int8_range _ (at_range data 12)).
  repeat constructor; unfold Qle; cbn; lia.
Qed.

Lemma subframeB_magnetic_field_range_witness :
  exists b,
    outcome (Telemetry.parseEstimoteTelemetryPacket telemetry_b1_vector)
      = Normal (Some (Telemetry.B b)) /\
    Forall (fun m => -1 <= m /\ m <= 127 # 128)%Q
      [x (Telemetry.SubframeB.magneticField b);
       y (Telemetry.SubframeB.magneticField b);
       z (Telemetry.SubframeB.magneticField b)].
Proof.
  eexists. split; [vm_compute; reflexivity|].
  refine (proj2 (subframeB_magnetic_field_range telemetry_b1_vector _ _)).
  vm_compute. reflexivity.
Defined.

(** The uptime of a subframe B record counts byte 14 plus 256 times the low
    4 bits of byte 15, so it lies in 0 .. 4095; its unit is always set, is
    chosen by bits 4 and 5 of byte 15 and is never weeks. *)
Theorem subframeB_uptime (data : Buffer.t) (b : Telemetry.SubframeB.t) :
  outcome (Telemetry.parseEstimoteTelemetryPacket data)
    = Normal (Some (Telemetry.B b)) ->
  let n := at_ data 14 + (at_ data 15 mod 16) * 256 in
  let code := (at_ data 15 / 16) mod 4 in
  Telemetry.uptimeNumber (Telemetry.SubframeB.uptime b) = n /\
  0 <= n <= 4095 /\
  Telemetry.uptimeUnit (Telemetry.SubframeB.uptime b)
    = Some (if code =? 0 then seconds
            else if code =? 1 then minutes
            else if code =? 2 then hours
            else days) /\
  Telemetry.uptimeUnit (Telemetry.SubframeB.uptime b) <> Some weeks.
Proof.
  intros H. destruct (telemetry_B_of_packet _ _ H) as (_ & Hs).
  destruct (subframeB_record _ _ _ _ Hs) as (_ & _ & _ & _ & Hu).
  pose proof (at_range data 14) as R14.
  pose proof (at_range data 15) as R15.
  pose proof (Z.mod_pos_bound (at_ data 15) 16 ltac:(lia)).
  pose proof (Z.mod_pos_bound (at_ data 15 / 16) 4 ltac:(lia)).
  rewrite (byte_land_15 _ R15), (byte_land_48 _ R15) in Hu.
  rewrite lor_shiftl_low in Hu by (simpl; lia).
  change (2 ^ 8) with 256 in Hu. cbv zeta in Hu. cbv zeta.
  rewrite Hu. cbn [Telemetry.uptimeNumber Telemetry.uptimeUnit].
  split; [lia|]. split; [lia|].
  destruct (Z.eqb_spec ((at_ data 15 / 16) mod 4) 0);
    [split; [reflexivity|discriminate]|].
  destruct (Z.eqb_spec ((at_ data 15 / 16) mod 4) 1);
    [split; [reflexivity|discriminate]|].
  destruct (Z.eqb_spec ((at_ data 15 / 16) mod 4) 2);
    [split; [reflexivity|discriminate]|].
  destruct (Z.eqb_spec ((at_ data 15 / 16) mod 4) 3); [|lia].
  split; [reflexivity|discriminate].
Qed.

Lemma subframeB_uptime_witness :
  exists b,
    outcome (Telemetry.parseEstimoteTelemetryPacket telemetry_b1_vector)
      = Normal (Some (Telemetry.B b)) /\
    Telemetry.uptimeNumber (Telemetry.SubframeB.uptime b) = 298 /\
    Telemetry.uptimeUnit (Telemetry.SubframeB.uptime b) = Some minutes.
Proof.
  eexists. split; [vm_compute; reflexivity|].
  pose proof (subframeB_uptime telemetry_b1_vector _ eq_refl)
    as (Hn & _ & Hu & _).
  split; [exact Hn|exact Hu].
Defined.

(** The double an ambient light byte decodes to. *)
Lemma ambient_light_double_bounds : forall b, 0 <= b < 256 ->
  (let lux := PrimFloat.mul
                (PrimFloat.mul (double (2 ^ Z.shiftr (Z.land b 240) 4))
                               (double (Z.land b 15)))
                0.72 in
   PrimFloat.leb 0 lux && PrimFloat.leb lux 353894.4
   && Bool.eqb (PrimFloat.eqb lux 0) (b mod 16 =? 0)) = true.
Proof.
  apply (below_forallb
    (fun b => let lux := PrimFloat.mul
                (PrimFloat.mul (double (2 ^ Z.shiftr (Z.land b 240) 4))
                               (double (Z.land b 15)))
                0.72 in
       PrimFloat.leb 0 lux && PrimFloat.leb lux 353894.4
       && Bool.eqb (PrimFloat.eqb lux 0) (b mod 16 =? 0)) 256).
  vm_compute. reflexivity.
Qed.

(** The ambient light level of a subframe B record is the double the code
    computes as 2^(upper half of byte 13) times the lower half times 0.72,
    each product rounded as IEEE doubles are.  It lies between 0 and
    353894.4 lux and is 0 exactly when the lower half is 0. *)
Theorem subframeB_ambient_light (data : Buffer.t)
    (b : Telemetry.SubframeB.t) :
  outcome (Telemetry.parseEstimoteTelemetryPacket data)
    = Normal (Some (Telemetry.B b)) ->
  let upper := at_ data 13 / 16 in
  let lower := at_ data 13 mod 16 in
  let lux := Telemetry.SubframeB.ambientLightLevel b in
  lux = PrimFloat.mul (PrimFloat.mul (double (2 ^ upper)) (double lower)) 0.72
  /\
  PrimFloat.leb 0 lux = true /\ PrimFloat.leb lux 353894.4 = true /\
  (PrimFloat.eqb lux 0 = true <-> lower = 0).
Proof.
  intros H. destruct (telemetry_B_of_packet _ _ H) as (_ & Hs).
  destruct (subframeB_record _ _ _ _ Hs) as (_ & _ & _ & Hl & _).
  pose proof (at_range data 13) as R13.
  pose proof (ambient_light_double_bounds _ R13) as Hc.
  cbv zeta in Hc. rewrite <- Hl in Hc. cbv zeta.
  rewrite (byte_land_240_div _ R13), (byte_land_15 _ R13) in Hl.
  apply andb_prop in Hc. destruct Hc as [Hc H0].
  apply andb_prop in Hc. destruct Hc as [Hlo Hhi].
  apply Bool.eqb_prop in H0.
  split; [exact Hl|]. split; [exact Hlo|]. split; [exact Hhi|].
  rewrite H0. apply Z.eqb_eq.
Qed.

Lemma subframeB_ambient_light_witness :
  exists b,
    outcome (Telemetry.parseEstimoteTelemetryPacket telemetry_b1_vector)
      = Normal (Some (Telemetry.B b)) /\
    Telemetry.SubframeB.ambientLightLevel b = 28.799999999999997%float.
Proof.
  eexists. split; [vm_compute; reflexivity|].
  pose proof (subframeB_ambient_light telemetry_b1_vector _ eq_refl)
    as (Hl & _).
  eapply eq_trans; [exact Hl|]. vm_compute. reflexivity.
Defined.

(** The short identifier of a Telemetry record, of either subframe, is 16
    characters, each of them one of the hexadecimal digits [0-9a-f], and
    reading them back two by two gives bytes 1 to 8 of the buffer in
    order. *)
Theorem telemetry_identifier_round_trip (data : Buffer.t) :
  (forall a,
     outcome (Telemetry.parseEstimoteTelemetryPacket data)
       = Normal (Some (Telemetry.A a)) ->
     String.length (Telemetry.SubframeA.shortIdentifier a) = 16%nat /\
     Forall (fun c => hexDigitValue c <> None)
       (list_ascii_of_string (Telemetry.SubframeA.shortIdentifier a)) /\
     unhex (Telemetry.SubframeA.shortIdentifier a)
       = Some (map (at_ data) (seq 1 8))) /\
  (forall b,
     outcome (Telemetry.parseEstimoteTelemetryPacket data)
       = Normal (Some (Telemetry.B b)) ->
     String.length (Telemetry.SubframeB.shortIdentifier b) = 16%nat /\
     Forall (fun c => hexDigitValue c <> None)
       (list_ascii_of_string (Telemetry.SubframeB.shortIdentifier b)) /\
     unhex (Telemetry.SubframeB.shortIdentifier b)
       = Some (map (at_ data) (seq 1 8))).
Proof.
  split.
  - intros a H. destruct (telemetry_dispatch_id _ _ H) as (Hlen & _).
    destruct (telemetry_A_of_packet _ _ H) as (_ & Hs).
    destruct (subframeA_record _ _ _ _ Hs) as (Hid & _).
    rewrite Hid. apply (identifier_round_trip data 1). lia.
  - intros b H. destruct (telemetry_dispatch_id _ _ H) as (Hlen & _).
    destruct (telemetry_B_of_packet _ _ H) as (_ & Hs).
    destruct (subframeB_record _ _ _ _ Hs) as (Hid & _).
    rewrite Hid. apply (identifier_round_trip data 1). lia.
Qed.

Lemma telemetry_identifier_round_trip_witness :
  exists b,
    outcome (Telemetry.parseEstimoteTelemetryPacket telemetry_b1_vector)
      = Normal (Some (Telemetry.B b)) /\
    unhex (Telemetry.SubframeB.shortIdentifier b)
      = Some [0x11; 0x22; 0x33; 0x44; 0x55; 0x66; 0x77; 0x88].
Proof.
  eexists. split; [vm_compute; reflexivity|].
  apply (proj2 (telemetry_identifier_round_trip telemetry_b1_vector)).
  vm_compute. reflexivity.
Defined.

(** ** Which buffers decode *)

Lemma subframeA_returns_min (data : Buffer.t) (shortIdentifier : string)
    (v : Z) :
  (16 <= List.length data)%nat ->
  (v = 1 -> (17 <= List.length data)%nat) ->
  (v = 2 -> (20 <= List.length data)%nat) ->
  exists a,
    outcome (Telemetry.parseSubframeA data shortIdentifier v)
      = Normal (Some (Telemetry.A a)).
Proof.
  intros Hlen H1 H2. unfold Telemetry.parseSubframeA.
  eval_fwd.
  destruct (Z.eqb_spec v 2) as [E2|E2].
  { specialize (H2 E2). eval_fwd. eexists. reflexivity. }
  destruct (Z.eqb_spec v 1) as [E1|E1].
  { specialize (H1 E1). eval_fwd. eexists. reflexivity. }
  destruct (v =? 0); eval_fwd; eexists; reflexivity.
Qed.

Lemma telemetry_undefined_inv (data : Buffer.t) :
  outcome (Telemetry.parseEstimoteTelemetryPacket data) = Normal None ->
  (1 <= List.length data)%nat /\
  (at_ data 0 mod 16 <> 2 \/ 2 < at_ data 0 / 16 \/
   ((10 <= List.length data)%nat /\ 2 <= at_ data 9 mod 4)).
Proof.
  intros H. unfold Telemetry.parseEstimoteTelemetryPacket in H.
  unfold Telemetry.ESTIMOTE_FRAME_TYPE_TELEMETRY,
    Telemetry.ESTIMOTE_TELEMETRY_SUBFRAME_A,
    Telemetry.ESTIMOTE_TELEMETRY_SUBFRAME_B in H.
  pose proof (at_range data 0) as R0.
  pose proof (at_range data 9) as R9.
  apply bind_Normal in H. destruct H as (f & Hf & H). inv_read Hf.
  cbv beta zeta in H. rewrite (byte_land_15 _ R0) in H.
  split; [lia|].
  destruct (Z.eqb_spec (at_ data 0 mod 16) 2) as [Hft|Hft];
    cbn [negb] in H; [|left; exact Hft].
  apply bind_Normal in H. destruct H as (v & Hv & H). inv_read Hv.
  cbv beta zeta in H. rewrite (byte_land_240_div _ R0) in H.
  destruct (Z.ltb_spec 2 (at_ data 0 / 16)) as [Hver|Hver];
    [right; left; exact Hver|].
  rewrite outcome_bind, toStringHex_outcome in H.
  apply bind_Normal in H. destruct H as (s & Hs & H). inv_read Hs.
  cbv beta zeta in H. rewrite (byte_land_3 _ R9) in H.
  pose proof (Z.mod_pos_bound (at_ data 9) 4 ltac:(lia)).
  destruct (Z.eqb_spec (at_ data 9 mod 4) 0) as [Ha|Ha].
  { apply subframeA_fields in H. destruct H as (a & [=] & _). }
  destruct (Z.eqb_spec (at_ data 9 mod 4) 1) as [Hb|Hb].
  { apply subframeB_fields in H; [destruct H as (b & [=] & _)|].
    apply Z.div_pos; lia. }
  right. right. split; lia.
Qed.

Lemma telemetry_undefined (data : Buffer.t) :
  (1 <= List.length data)%nat ->
  at_ data 0 mod 16 <> 2 \/ 2 < at_ data 0 / 16 \/
  ((10 <= List.length data)%nat /\ 2 <= at_ data 9 mod 4) ->
  outcome (Telemetry.parseEstimoteTelemetryPacket data) = Normal None.
Proof.
  intros Hlen Hc.
  pose proof (at_range data 0) as R0.
  pose proof (at_range data 9) as R9.
  pose proof (byte_land_240_div _ R0) as Hhi.
  pose proof (byte_land_15 _ R0) as Hlo.
  pose proof (byte_land_3 _ R9) as Hsub.
  unfold Telemetry.parseEstimoteTelemetryPacket,
    Telemetry.ESTIMOTE_FRAME_TYPE_TELEMETRY,
    Telemetry.ESTIMOTE_TELEMETRY_SUBFRAME_A,
    Telemetry.ESTIMOTE_TELEMETRY_SUBFRAME_B.
  destruct (Z.eq_dec (at_ data 0 mod 16) 2) as [Hft|Hft];
    [|eval_fwd; reflexivity].
  destruct (Z_le_gt_dec (at_ data 0 / 16) 2) as [Hv|Hv];
    [|eval_fwd; reflexivity].
  destruct Hc as [Hc|[Hc|[Hl Hc]]]; [lia|lia|].
  eval_fwd. reflexivity.
Qed.

Lemma telemetry_record_inv (data : Buffer.t) (p : Telemetry.Packet) :
  outcome (Telemetry.parseEstimoteTelemetryPacket data) = Normal (Some p) ->
  at_ data 0 mod 16 = 2 /\ at_ data 0 / 16 <= 2 /\
  match p with
  | Telemetry.A _ =>
      at_ data 9 mod 4 = 0 /\ (16 <= List.length data)%nat /\
      (at_ data 0 / 16 = 1 -> (17 <= List.length data)%nat) /\
      (at_ data 0 / 16 = 2 -> (20 <= List.length data)%nat)
  | Telemetry.B _ =>
      at_ data 9 mod 4 = 1 /\ (20 <= List.length data)%nat
  end.
Proof.
  intros H.
  pose proof (at_range data 0) as R0.
  pose proof (at_range data 9) as R9.
  destruct (telemetry_fields _ _ H) as (Hft & Hv & Hs).
  rewrite (byte_land_15 _ R0) in Hft. rewrite (byte_land_3 _ R9) in Hs.
  rewrite Z.shiftr_div_pow2 in Hv, Hs by lia. change (2 ^ 4) with 16 in *.
  split; [exact Hft|]. split; [lia|].
  destruct Hs as [[Hs [sid Hr]]|[Hs [sid Hr]]].
  - apply subframeA_fields in Hr.
    destruct Hr as (a & [= ->] & H16 & H17 & H20 & _). auto.
  - apply subframeB_fields in Hr; [|lia].
    destruct Hr as (b & [= ->] & H20 & _). auto.
Qed.

Lemma telemetry_record (data : Buffer.t) :
  at_ data 0 mod 16 = 2 -> at_ data 0 / 16 <= 2 ->
  (at_ data 9 mod 4 = 0 -> (16 <= List.length data)%nat ->
   (at_ data 0 / 16 = 1 -> (17 <= List.length data)%nat) ->
   (at_ data 0 / 16 = 2 -> (20 <= List.length data)%nat) ->
   exists a, outcome (Telemetry.parseEstimoteTelemetryPacket data)
             = Normal (Some (Telemetry.A a))) /\
  (at_ data 9 mod 4 = 1 -> (20 <= List.length data)%nat ->
   exists b, outcome (Telemetry.parseEstimoteTelemetryPacket data)
             = Normal (Some (Telemetry.B b))).
Proof.
  intros Hft Hv.
  pose proof (at_range data 0) as R0.
  pose proof (at_range data 9) as R9.
  rewrite <- (byte_land_15 _ R0) in Hft.
  rewrite <- (byte_land_3 _ R9).
  assert (Hsh : Z.shiftr (at_ data 0) 4 = at_ data 0 / 16)
    by (rewrite Z.shiftr_div_pow2 by lia; reflexivity).
  rewrite <- Hsh in *.
  split.
  - intros Hs H16 H17 H20.
    destruct (telemetry_dispatch data) as [sid Hd];
      [lia|exact Hft|exact Hv|].
    cbv zeta in Hd. rewrite Hs in Hd. cbn [Z.eqb] in Hd. rewrite Hd.
    apply subframeA_returns_min; assumption.
  - intros Hs H20.
    destruct (telemetry_returns data H20 Hft Hv) as [_ HB]. auto.
Qed.

(** What the Telemetry decoder does is decided by the length of the buffer
    and by bytes 0 and 9.  A subframe A record needs 16 bytes in protocol
    version 0, 17 in version 1 and 20 in version 2; a subframe B record
    needs 20.  [undefined] comes from a frame type other than 2, a version
    above 2 (1 byte suffices for both) or a subframe selector of 2 or 3
    (10 bytes suffice).  Every other buffer throws [RangeError]. *)
Theorem telemetry_outcome_cases (data : Buffer.t) :
  let len := List.length data in
  let ft := at_ data 0 mod 16 in
  let v := at_ data 0 / 16 in
  let sub := at_ data 9 mod 4 in
  let needA :=
    (if (v =? 2)%Z then 20 else if (v =? 1)%Z then 17 else 16)%nat in
  let r := outcome (Telemetry.parseEstimoteTelemetryPacket data) in
  ((exists a, r = Normal (Some (Telemetry.A a))) <->
   ft = 2 /\ v <= 2 /\ sub = 0 /\ (needA <= len)%nat) /\
  ((exists b, r = Normal (Some (Telemetry.B b))) <->
   ft = 2 /\ v <= 2 /\ sub = 1 /\ (20 <= len)%nat) /\
  (r = Normal None <->
   (1 <= len)%nat /\
   (ft <> 2 \/ 2 < v \/ ((10 <= len)%nat /\ 2 <= sub))) /\
  (r = Throw RangeError <->
   len = 0%nat \/
   (ft = 2 /\ v <= 2 /\
    ((len < 10)%nat \/ (sub = 0 /\ (len < needA)%nat) \/
     (sub = 1 /\ (len < 20)%nat)))).
Proof.
  cbv zeta.
  pose proof (at_range data 0) as R0.
  pose proof (at_range data 9) as R9.
  pose proof (Z.mod_pos_bound (at_ data 9) 4 ltac:(lia)) as Rs.
  assert (Rv : 0 <= at_ data 0 / 16) by (apply Z.div_pos; lia).
  pose proof (telemetry_undefined_inv data) as InvN.
  pose proof (telemetry_undefined data) as FwdN.
  pose proof (fun p => telemetry_record_inv data p) as InvR.
  pose proof (telemetry_record data) as FwdR.
  set (need := (if (at_ data 0 / 16 =? 2)%Z then 20
                else if (at_ data 0 / 16 =? 1)%Z then 17 else 16)%nat).
  assert (Hneed : (16 <= need)%nat /\
                  (at_ data 0 / 16 = 1 -> need = 17%nat) /\
                  (at_ data 0 / 16 = 2 -> need = 20%nat) /\
                  (at_ data 0 / 16 <> 1 -> at_ data 0 / 16 <> 2 ->
                   need = 16%nat)).
  { unfold need.
    destruct (Z.eqb_spec (at_ data 0 / 16) 2),
      (Z.eqb_spec (at_ data 0 / 16) 1); repeat split; intros; lia. }
  clearbody need. destruct Hneed as (Hn16 & Hn1 & Hn2 & Hn0).
  assert (FwdA :
    at_ data 0 mod 16 = 2 -> at_ data 0 / 16 <= 2 ->
    at_ data 9 mod 4 = 0 -> (need <= List.length data)%nat ->
    exists a, outcome (Telemetry.parseEstimoteTelemetryPacket data)
              = Normal (Some (Telemetry.A a))).
  { intros Hft Hv Hs Hl. destruct (FwdR Hft Hv) as [HA _].
    apply HA; [exact Hs|lia| |].
    - intros E. rewrite (Hn1 E) in Hl. exact Hl.
    - intros E. rewrite (Hn2 E) in Hl. exact Hl. }
  assert (FwdB :
    at_ data 0 mod 16 = 2 -> at_ data 0 / 16 <= 2 ->
    at_ data 9 mod 4 = 1 -> (20 <= List.length data)%nat ->
    exists b, outcome (Telemetry.parseEstimoteTelemetryPacket data)
              = Normal (Some (Telemetry.B b))).
  { intros Hft Hv Hs Hl. destruct (FwdR Hft Hv) as [_ HB]. auto. }
  assert (InvA : forall a,
    outcome (Telemetry.parseEstimoteTelemetryPacket data)
      = Normal (Some (Telemetry.A a)) ->
    at_ data 0 mod 16 = 2 /\ at_ data 0 / 16 <= 2 /\
    at_ data 9 mod 4 = 0 /\ (need <= List.length data)%nat).
  { intros a H. destruct (InvR _ H) as (Hft & Hv & Hs & H16 & H17 & H20).
    repeat split; try assumption.
    destruct (Z.eq_dec (at_ data 0 / 16) 1) as [E|E1];
      [rewrite (Hn1 E); auto|].
    destruct (Z.eq_dec (at_ data 0 / 16) 2) as [E|E2];
      [rewrite (Hn2 E); auto|].
    rewrite (Hn0 E1 E2). exact H16. }
  assert (InvB : forall b,
    outcome (Telemetry.parseEstimoteTelemetryPacket data)
      = Normal (Some (Telemetry.B b)) ->
    at_ data 0 mod 16 = 2 /\ at_ data 0 / 16 <= 2 /\
    at_ data 9 mod 4 = 1 /\ (20 <= List.length data)%nat).
  { intros b H. destruct (InvR _ H) as (Hft & Hv & Hs & H20). auto. }
  clear InvR FwdR Hn1 Hn2 Hn0.
  destruct (outcome (Telemetry.parseEstimoteTelemetryPacket data))
    as [[[a|b]|]|[]] eqn:Hr.
  - destruct (InvA a eq_refl) as (Hft & Hv & Hs & Hl).
    split; [split; [auto|eauto]|].
    split; [split; [intros [b' [=]]|lia]|].
    split; (split; [discriminate|lia]).
  - destruct (InvB b eq_refl) as (Hft & Hv & Hs & Hl).
    split; [split; [intros [a' [=]]|lia]|].
    split; [split; [auto|eauto]|].
    split; (split; [discriminate|lia]).
  - destruct (InvN eq_refl) as (Hl & Hc).
    split; [split; [intros [a' [=]]|lia]|].
    split; [split; [intros [b' [=]]|lia]|].
    split; [split; [auto|reflexivity]|split; [discriminate|lia]].
  - split; [split; [intros [a' [=]]|]|].
    { intros (Hft & Hv & Hs & Hl).
      destruct (FwdA Hft Hv Hs Hl) as [a' [=]]. }
    split; [split; [intros [b' [=]]|]|].
    { intros (Hft & Hv & Hs & Hl).
      destruct (FwdB Hft Hv Hs Hl) as [b' [=]]. }
    split; [split; [discriminate|]|].
    { intros (Hl & Hc). specialize (FwdN Hl Hc). discriminate. }
    split; [intros _|reflexivity].
    destruct (Nat.eq_dec (List.length data) 0) as [|Hl0]; [auto|].
    right.
    destruct (Z.eq_dec (at_ data 0 mod 16) 2) as [Hft|Hft];
      [|discriminate FwdN; [lia|auto]].
    destruct (Z_le_gt_dec (at_ data 0 / 16) 2) as [Hv|Hv];
      [|discriminate FwdN; [lia|right; left; lia]].
    split; [exact Hft|]. split; [exact Hv|].
    destruct (Nat.lt_ge_cases (List.length data) 10) as [|Hl10]; [auto|].
    right.
    destruct (Z.eq_dec (at_ data 9 mod 4) 0) as [Hs0|Hs0].
    { left. split; [exact Hs0|].
      destruct (Nat.lt_ge_cases (List.length data) need) as [|Hl]; [auto|].
      destruct (FwdA Hft Hv Hs0 Hl) as [a' [=]]. }
    destruct (Z.eq_dec (at_ data 9 mod 4) 1) as [Hs1|Hs1].
    { right. split; [exact Hs1|].
      destruct (Nat.lt_ge_cases (List.length data) 20) as [|Hl]; [auto|].
      destruct (FwdB Hft Hv Hs1 Hl) as [b' [=]]. }
    discriminate FwdN; [lia|right; right; split; lia].
Qed.

Lemma telemetry_outcome_cases_witness :
  (exists a,
     outcome (Telemetry.parseEstimoteTelemetryPacket
                (firstn 16 telemetry_a0_moving3_vector))
       = Normal (Some (Telemetry.A a))) /\
  outcome (Telemetry.parseEstimoteTelemetryPacket telemetry_short_vector)
    = Throw RangeError.
Proof.
  pose proof (telemetry_outcome_cases (firstn 16 telemetry_a0_moving3_vector))
    as (HA & _).
  pose proof (telemetry_outcome_cases telemetry_short_vector)
    as (_ & _ & _ & HT).
  split.
  - apply HA. repeat split; solve [reflexivity | vm_compute; discriminate
                                  | simpl; lia].
  - apply HT. right. split; [reflexivity|].
    split; [vm_compute; discriminate|].
    right. left. split; [reflexivity|simpl; lia].
Defined.

(** ** The decoders depend on the bytes they read, and on nothing else *)

Section Frame.

Variables data data' : Buffer.t.

Lemma follows_ret {A : Type} (a : A) : follows data data' (ret a) (ret a).
Proof. intros _. reflexivity. Qed.

Lemma follows_bind {A B : Type} (m m' : Eval A) (f f' : A -> Eval B) :
  follows data data' m m' ->
  (forall a, follows data data' (f a) (f' a)) ->
  follows data data' (bind m f) (bind m' f').
Proof.
  unfold follows, same_bytes. intros Hm Hf Hs.
  rewrite trace_bind in Hs.
  assert (Hsm : Forall (fun o => nth_error data' o = nth_error data o)
                  (trace m)).
  { destruct (outcome m); [|exact Hs].
    apply Forall_app in Hs. apply Hs. }
  rewrite (Hm Hsm). unfold bind.
  destruct (outcome m) as [a|e]; [|reflexivity].
  apply Forall_app in Hs. rewrite (Hf a (proj2 Hs)). reflexivity.
Qed.

Lemma follows_if {A : Type} (c : bool) (m1 m2 m1' m2' : Eval A) :
  follows data data' m1 m1' -> follows data data' m2 m2' ->
  follows data data' (if c then m1 else m2) (if c then m1' else m2').
Proof. destruct c; auto. Qed.

Lemma follows_readUInt8 (offset : nat) :
  follows data data' (readUInt8 data offset) (readUInt8 data' offset).
Proof.
  unfold follows, same_bytes, readUInt8. cbn [trace span seq]. intros Hs.
  inversion Hs as [|? ? H0 _]; subst. rewrite H0. reflexivity.
Qed.

Lemma follows_readInt8 (offset : nat) :
  follows data data' (readInt8 data offset) (readInt8 data' offset).
Proof.
  unfold follows, same_bytes, readInt8. cbn [trace span seq]. intros Hs.
  inversion Hs as [|? ? H0 _]; subst. rewrite H0. reflexivity.
Qed.

Lemma follows_readUInt16LE (offset : nat) :
  follows data data' (readUInt16LE data offset) (readUInt16LE data' offset).
Proof.
  unfold follows, same_bytes, readUInt16LE. cbn [trace span seq]. intros Hs.
  inversion Hs as [|? ? H0 Hs1]; subst.
  inversion Hs1 as [|? ? H1 _]; subst.
  replace (offset + 1)%nat with (S offset) by lia.
  rewrite H0, H1. reflexivity.
Qed.

Lemma follows_readUInt32LE (offset : nat) :
  follows data data' (readUInt32LE data offset) (readUInt32LE data' offset).
Proof.
  unfold follows, same_bytes, readUInt32LE. cbn [trace span seq]. intros Hs.
  inversion Hs as [|? ? H0 Hs1]; subst.
  inversion Hs1 as [|? ? H1 Hs2]; subst.
  inversion Hs2 as [|? ? H2 Hs3]; subst.
  inversion Hs3 as [|? ? H3 _]; subst.
  replace (offset + 1)%nat with (S offset) by lia.
  replace (offset + 2)%nat with (S (S offset)) by lia.
  replace (offset + 3)%nat with (S (S (S offset))) by lia.
  rewrite H0, H1, H2, H3. reflexivity.
Qed.

Lemma nth_error_slice (d : Buffer.t) (start end_ i : nat) :
  nth_error (slice d start end_) i
  = if (i <? end_ - start)%nat then nth_error d (start + i) else None.
Proof.
  unfold slice. rewrite nth_error_firstn, nth_error_skipn. reflexivity.
Qed.

Lemma length_slice (d : Buffer.t) (start end_ : nat) :
  List.length (slice d start end_)
  = Nat.min (end_ - start) (List.length d - start).
Proof. unfold slice. rewrite length_firstn, length_skipn. reflexivity. Qed.

(** [toString] clamps its range: the two buffers must clamp it alike. *)
Lemma follows_toStringHex (start end_ : nat) :
  Nat.min end_ (List.length data) = Nat.min end_ (List.length data') ->
  follows data data' (toStringHex data start end_)
    (toStringHex data' start end_).
Proof.
  unfold follows, same_bytes, toStringHex, span. cbn [trace]. intros Hmin Hs.
  assert (E : slice data' start end_ = slice data start end_).
  { apply nth_error_ext. intros i. rewrite !nth_error_slice.
    destruct (Nat.ltb_spec i (end_ - start)) as [Hi|Hi]; [|reflexivity].
    destruct (Nat.lt_ge_cases (start + i) (List.length data)) as [Hin|Hout].
    - rewrite Forall_forall in Hs. apply Hs. apply in_seq.
      rewrite length_slice. lia.
    - rewrite (proj2 (nth_error_None data (start + i))) by exact Hout.
      apply nth_error_None. lia. }
  rewrite E. reflexivity.
Qed.

End Frame.

Ltac follows_walk :=
  repeat first
    [ progress cbv zeta
    | apply follows_bind; [|intros ?]
    | apply follows_if
    | apply follows_ret
    | apply follows_readUInt8
    | apply follows_readInt8
    | apply follows_readUInt16LE
    | apply follows_readUInt32LE
    | apply follows_toStringHex; lia ].

Lemma nearable_follows (data data' : Buffer.t) :
  Nat.min 11 (List.length data) = Nat.min 11 (List.length data') ->
  follows data data' (Nearable.parseEstimoteNearablePacket data)
    (Nearable.parseEstimoteNearablePacket data').
Proof.
  intros Hmin. unfold Nearable.parseEstimoteNearablePacket. follows_walk.
Qed.

Lemma telemetry_follows (data data' : Buffer.t) :
  Nat.min 9 (List.length data) = Nat.min 9 (List.length data') ->
  follows data data' (Telemetry.parseEstimoteTelemetryPacket data)
    (Telemetry.parseEstimoteTelemetryPacket data').
Proof.
  intros Hmin.
  unfold Telemetry.parseEstimoteTelemetryPacket, Telemetry.parseSubframeA,
    Telemetry.parseSubframeB.
  follows_walk.
Qed.

(** Bytes after the last one a format uses are ignored: a buffer of at
    least 21 bytes (Nearable) or 20 bytes (Telemetry) decodes, offsets read
    included, as it does with anything appended to it. *)
Theorem trailing_bytes_ignored (data extra : Buffer.t) :
  ((21 <= List.length data)%nat ->
   Nearable.parseEstimoteNearablePacket (data ++ extra)
   = Nearable.parseEstimoteNearablePacket data) /\
  ((20 <= List.length data)%nat ->
   Telemetry.parseEstimoteTelemetryPacket (data ++ extra)
   = Telemetry.parseEstimoteTelemetryPacket data).
Proof.
  split; intros Hlen.
  - apply nearable_follows; [rewrite length_app; lia|].
    unfold same_bytes. eapply Forall_impl; [|apply nearable_upto].
    cbv beta. intros o Ho. apply nth_error_app1. lia.
  - apply telemetry_follows; [rewrite length_app; lia|].
    unfold same_bytes. eapply Forall_impl; [|apply telemetry_upto].
    cbv beta. intros o Ho. apply nth_error_app1. lia.
Qed.

Lemma trailing_bytes_ignored_witness :
  Nearable.parseEstimoteNearablePacket (nearable_vector ++ [xff; xff])
  = Nearable.parseEstimoteNearablePacket nearable_vector /\
  Telemetry.parseEstimoteTelemetryPacket (telemetry_a2_vector ++ [xff])
  = Telemetry.parseEstimoteTelemetryPacket telemetry_a2_vector.
Proof.
  split.
  - apply (trailing_bytes_ignored nearable_vector [xff; xff]). simpl. lia.
  - apply (trailing_bytes_ignored telemetry_a2_vector [xff]). simpl. lia.
Defined.

Section ReadsOnly.

Variable P : nat -> Prop.

Lemma only_ret {A : Type} (a : A) : reads_only P (ret a).
Proof. constructor. Qed.

Lemma only_bind {A B : Type} (m : Eval A) (f : A -> Eval B) :
  reads_only P m -> (forall a, reads_only P (f a)) -> reads_only P (bind m f).
Proof.
  unfold reads_only. intros Hm Hf. rewrite trace_bind.
  destruct (outcome m) as [a|e]; [|exact Hm].
  apply Forall_app. split; [exact Hm|apply Hf].
Qed.

Lemma only_if {A : Type} (c : bool) (m1 m2 : Eval A) :
  reads_only P m1 -> reads_only P m2 -> reads_only P (if c then m1 else m2).
Proof. destruct c; auto. Qed.

Lemma only_span (offset k : nat) :
  (forall o, (offset <= o < offset + k)%nat -> P o) ->
  Forall P (span offset k).
Proof.
  intros H. apply Forall_forall. intros o Ho. apply in_seq in Ho. auto.
Qed.

Lemma only_toStringHex (data : Buffer.t) (start end_ : nat) :
  (forall o, (start <= o < end_)%nat -> P o) ->
  reads_only P (toStringHex data start end_).
Proof.
  intros H. unfold reads_only, toStringHex, span. cbn [trace].
  apply Forall_forall. intros o Ho. apply in_seq in Ho.
  pose proof (slice_length data start end_). apply H. lia.
Qed.

End ReadsOnly.

Ltac only_walk :=
  repeat first
    [ progress cbv zeta
    | apply only_bind; [|intros ?]
    | apply only_if
    | apply only_ret
    | apply only_toStringHex; intros; lia
    | apply only_span; intros; lia ].

(** The Nearable decoder never looks at bytes 11 and 12: two buffers of one
    length that differ at those two offsets only decode alike. *)
Theorem nearable_ignores_bytes_11_12 (data data' : Buffer.t) :
  List.length data' = List.length data ->
  (forall o, o <> 11%nat -> o <> 12%nat ->
             nth_error data' o = nth_error data o) ->
  Nearable.parseEstimoteNearablePacket data'
  = Nearable.parseEstimoteNearablePacket data.
Proof.
  intros Hlen Hsame. apply nearable_follows; [lia|].
  assert (Hr : reads_only (fun o => o <> 11%nat /\ o <> 12%nat)
                 (Nearable.parseEstimoteNearablePacket data)).
  { unfold Nearable.parseEstimoteNearablePacket. only_walk. }
  unfold same_bytes. eapply Forall_impl; [|exact Hr].
  cbv beta. intros o [H11 H12]. apply Hsame; assumption.
Qed.

Lemma nearable_ignores_bytes_11_12_witness :
  Nearable.parseEstimoteNearablePacket
    [x5d; x01; x01; x11; x22; x33; x44; x55; x66; x77; x88; xaa; xbb;
     x00; x10; x40; x0a; xec; x1e; x05; x05]
  = Nearable.parseEstimoteNearablePacket nearable_vector.
Proof.
  apply nearable_ignores_bytes_11_12; [reflexivity|].
  intros o H11 H12.
  do 11 (destruct o as [|o]; [reflexivity|]).
  destruct o as [|o]; [contradiction|].
  destruct o as [|o]; [contradiction|].
  reflexivity.
Defined.

(** ** The discover handlers *)

Lemma find_first_match {A : Type} (f : A -> bool) (pre post : list A) (el : A) :
  Forall (fun e => f e = false) pre -> f el = true ->
  find f (pre ++ el :: post) = Some el.
Proof.
  intros Hpre Hel. induction Hpre as [|e pre He _ IH]; cbn [app find].
  - rewrite Hel. reflexivity.
  - rewrite He. exact IH.
Qed.

Lemma find_no_match {A : Type} (f : A -> bool) (l : list A) :
  Forall (fun e => f e = false) l -> find f l = None.
Proof.
  intros H. induction H as [|e l He _ IH]; cbn [find]; [reflexivity|].
  rewrite He. exact IH.
Qed.

(** The Telemetry handler decodes the first service data entry whose uuid
    is fe9a and no other: it reads and logs what that entry decodes to (one
    record, or nothing for [undefined]), throws when that decode throws,
    and never looks at the entries behind it.  Without such an entry it
    logs nothing. *)
Theorem telemetry_onDiscover_first_entry
    (pre post : list TelemetryScan.ServiceData)
    (el : TelemetryScan.ServiceData) :
  Forall (fun e => TelemetryScan.uuid e <> "fe9a"%string) pre ->
  let handler (l : list TelemetryScan.ServiceData) :=
    TelemetryScan.onDiscover
      (TelemetryScan.mkPeripheral (TelemetryScan.mkAdvertisement l)) in
  let decode :=
    Telemetry.parseEstimoteTelemetryPacket (TelemetryScan.data el) in
  handler pre = ret [] /\
  (TelemetryScan.uuid el = "fe9a"%string ->
   trace (handler (pre ++ el :: post)) = trace decode /\
   outcome (handler (pre ++ el :: post))
   = match outcome decode with
     | Normal (Some p) => Normal [p]
     | Normal None => Normal []
     | Throw e => Throw e
     end).
Proof.
  intros Hpre. cbv zeta.
  assert (Hf : Forall
    (fun e => String.eqb (TelemetryScan.uuid e)
                TelemetryScan.ESTIMOTE_SERVICE_UUID = false) pre).
  { eapply Forall_impl; [|exact Hpre]. cbv beta. intros e He.
    apply String.eqb_neq. exact He. }
  unfold TelemetryScan.onDiscover.
  cbn [TelemetryScan.advertisement TelemetryScan.serviceData]. cbv zeta.
  split.
  - rewrite (find_no_match _ _ Hf). reflexivity.
  - intros Hel. rewrite (find_first_match _ pre post el Hf)
      by (apply String.eqb_eq; exact Hel).
    rewrite trace_bind, outcome_bind.
    destruct (outcome (Telemetry.parseEstimoteTelemetryPacket
                         (TelemetryScan.data el))) as [[p|]|e].
    + split; [cbn [ret trace]; apply app_nil_r|reflexivity].
    + split; [cbn [ret trace]; apply app_nil_r|reflexivity].
    + split; reflexivity.
Qed.

Lemma telemetry_onDiscover_first_entry_witness :
  outcome
    (TelemetryScan.onDiscover
       (TelemetryScan.mkPeripheral
          (TelemetryScan.mkAdvertisement
             ([TelemetryScan.mkServiceData "180f" [x64]]
              ++ TelemetryScan.mkServiceData "fe9a" foreign_vector
              :: [TelemetryScan.mkServiceData "fe9a" telemetry_a2_vector]))))
  = Normal [].
Proof.
  refine (proj2 (proj2
    (telemetry_onDiscover_first_entry
       [TelemetryScan.mkServiceData "180f" [x64]]
       [TelemetryScan.mkServiceData "fe9a" telemetry_a2_vector]
       (TelemetryScan.mkServiceData "fe9a" foreign_vector) _) _)).
  - repeat constructor. discriminate.
  - reflexivity.
Defined.

(** The Nearable handler logs at most one record, nothing when the
    advertisement has no manufacturer data, and exactly the record the
    manufacturer data decodes to; manufacturer data that is present but
    shorter than 2 bytes makes it throw [RangeError]. *)
Theorem nearable_onDiscover_cases (peripheral : NearableScan.Peripheral) :
  let md := NearableScan.manufacturerData
              (NearableScan.advertisement peripheral) in
  let r := outcome (NearableScan.onDiscover peripheral) in
  (forall l, r = Normal l -> (List.length l <= 1)%nat) /\
  (md = None -> r = Normal []) /\
  (forall data, md = Some data -> (List.length data < 2)%nat ->
                r = Throw RangeError) /\
  (forall data p, md = Some data ->
     (r = Normal [p] <->
      outcome (Nearable.parseEstimoteNearablePacket data)
        = Normal (Some p))).
Proof.
  cbv zeta. unfold NearableScan.onDiscover. cbv zeta.
  destruct (NearableScan.manufacturerData
              (NearableScan.advertisement peripheral)) as [data|].
  - rewrite outcome_bind.
    split; [|split; [discriminate|split]].
    + intros l.
      destruct (outcome (Nearable.parseEstimoteNearablePacket data))
        as [[p|]|e]; [| |discriminate]; intros [= <-]; simpl; lia.
    + intros d [= <-] Hlen.
      unfold Nearable.parseEstimoteNearablePacket. rewrite outcome_bind.
      destruct (outcome (readUInt16LE data 0)) as [c|[]] eqn:Hc;
        [|reflexivity].
      apply readUInt16LE_Normal in Hc. lia.
    + intros d p [= <-].
      destruct (outcome (Nearable.parseEstimoteNearablePacket data))
        as [[q|]|e]; split; intros [=]; subst; reflexivity.
  - split; [intros l [= <-]; simpl; lia|].
    split; [reflexivity|]. split; intros; discriminate.
Qed.

Lemma nearable_onDiscover_cases_witness :
  outcome
    (NearableScan.onDiscover
       (NearableScan.mkPeripheral (NearableScan.mkAdvertisement (Some []))))
  = Throw RangeError.
Proof.
  pose proof (nearable_onDiscover_cases
    (NearableScan.mkPeripheral (NearableScan.mkAdvertisement (Some []))))
    as (_ & _ & Ht & _).
  apply (Ht []); [reflexivity|simpl; lia].
Defined.
